(** * Crisis-investing backtester: portfolio simulation and metrics

    A shallow embedding of [src/main.py]: the helpers [fetch_data],
    [simulate_portfolio] and [calculate_metrics], the part of the Streamlit
    script that validates the allocations and feeds the helpers, and the
    pandas operations those lines call.

    Numbers.  The program computes with binary64 values (Python [float],
    NumPy [float64]).  They are modelled twice.  First as extended reals: a
    finite value is an exact real (no rounding, no overflow), and [+inf],
    [-inf] and [NaN] behave as IEEE 754 prescribes for division by zero and
    invalid operations, which NumPy performs without raising; signed zeros
    are not distinguished.  On this model stand the formulas, the bounds
    and the exceptions.  Then, for [simulate_portfolio] and the allocation
    test, as the binary64 numbers themselves (module [B64]): on that model
    stands what depends on the rounding, the order of the additions or the
    overflow of a product. *)

From Stdlib Require Import String List Bool Arith ZArith Lia.
From Stdlib Require Import Reals Lra Permutation.
From Stdlib Require PrimFloat.
Import ListNotations.

Open Scope R_scope.

(** ** Extended reals standing for binary64 *)

Inductive float : Type :=
| Fin (x : R)
| PInf
| NInf
| NaN.

Declare Scope float_scope.
Delimit Scope float_scope with float.
Bind Scope float_scope with float.

Definition Rltb (x y : R) : bool := if Rlt_dec x y then true else false.
Definition Rleb (x y : R) : bool := if Rle_dec x y then true else false.
Definition Reqb (x y : R) : bool := if Req_dec_T x y then true else false.

Definition isnan (a : float) : bool :=
  match a with NaN => true | _ => false end.

Definition notna (a : float) : bool := negb (isnan a).

Definition inf (positive : bool) : float := if positive then PInf else NInf.

Definition fneg (a : float) : float :=
  match a with
  | Fin x => Fin (- x)
  | PInf => NInf
  | NInf => PInf
  | NaN => NaN
  end.

Definition fabs (a : float) : float :=
  match a with
  | Fin x => Fin (Rabs x)
  | PInf | NInf => PInf
  | NaN => NaN
  end.

Definition fadd (a b : float) : float :=
  match a, b with
  | NaN, _ | _, NaN => NaN
  | Fin x, Fin y => Fin (x + y)
  | PInf, NInf | NInf, PInf => NaN
  | PInf, _ | _, PInf => PInf
  | NInf, _ | _, NInf => NInf
  end.

Definition fsub (a b : float) : float := fadd a (fneg b).

(** An infinity of sign [positive] times the finite [y]. *)
Definition inf_times (positive : bool) (y : R) : float :=
  if Reqb y 0 then NaN
  else if Rltb 0 y then inf positive else inf (negb positive).

Definition fmul (a b : float) : float :=
  match a, b with
  | NaN, _ | _, NaN => NaN
  | Fin x, Fin y => Fin (x * y)
  | PInf, Fin y | Fin y, PInf => inf_times true y
  | NInf, Fin y | Fin y, NInf => inf_times false y
  | PInf, PInf | NInf, NInf => PInf
  | PInf, NInf | NInf, PInf => NInf
  end.

Definition fdiv (a b : float) : float :=
  match a, b with
  | NaN, _ | _, NaN => NaN
  | Fin x, Fin y =>
      if Reqb y 0
      then if Reqb x 0 then NaN else inf (Rltb 0 x)
      else Fin (x / y)
  | Fin _, (PInf | NInf) => Fin 0
  | PInf, Fin y => inf (Rleb 0 y)
  | NInf, Fin y => inf (negb (Rleb 0 y))
  | (PInf | NInf), (PInf | NInf) => NaN
  end.

Definition fsqrt (a : float) : float :=
  match a with
  | Fin x => if Rltb x 0 then NaN else Fin (sqrt x)
  | PInf => PInf
  | NInf | NaN => NaN
  end.

(** Comparisons are false as soon as one side is [NaN]. *)
Definition flt (a b : float) : bool :=
  match a, b with
  | NaN, _ | _, NaN => false
  | Fin x, Fin y => Rltb x y
  | NInf, (Fin _ | PInf) => true
  | Fin _, PInf => true
  | _, _ => false
  end.

Definition fle (a b : float) : bool :=
  match a, b with
  | NaN, _ | _, NaN => false
  | Fin x, Fin y => Rleb x y
  | NInf, _ => true
  | _, PInf => true
  | _, _ => false
  end.

Definition of_nat (n : nat) : float := Fin (INR n).

Infix "⊕" := fadd (at level 50, left associativity) : float_scope.
Infix "⊖" := fsub (at level 50, left associativity) : float_scope.
Infix "⊗" := fmul (at level 40, left associativity) : float_scope.
Infix "⊘" := fdiv (at level 40, left associativity) : float_scope.

(** A plain left-to-right sum, as Python's [sum] and NumPy's [sum] give on
    values free of [NaN]. *)
Definition fsum (l : list float) : float := fold_left fadd l (Fin 0).

(** A reduction with [skipna=True] first replaces every [NaN] by zero. *)
Definition nansum (l : list float) : float :=
  fsum (map (fun x => if isnan x then Fin 0 else x) l).

(** ** Exceptions *)

Inductive exn : Type :=
| IndexError
| ValueError.

Inductive result (A : Type) : Type :=
| Return (a : A)
| Raise (e : exn).

Arguments Return {A} a.
Arguments Raise {A} e.

Definition bind {A B : Type} (m : result A) (k : A -> result B) : result B :=
  match m with
  | Return a => k a
  | Raise e => Raise e
  end.

Notation "x <- m ;; k" := (bind m (fun x => k))
  (at level 61, m at next level, right associativity).

(** ** The pandas objects the program handles *)

Definition ticker := string.

(** A trading date, as a day number. *)
Definition date := Z.

(** A [Series] of numbers indexed by date. *)
Definition Series := list (date * float).

(** A [DataFrame] of prices: the column labels and, for every date of the
    index, the row of values (one per column, in column order). *)
Record DataFrame : Type := mkDataFrame {
  columns : list ticker;
  rows : list (date * list float)
}.

Definition index (data : DataFrame) : list date := map fst (rows data).

Definition Series_index (s : Series) : list date := map fst s.
Definition Series_values (s : Series) : list float := map snd s.

Fixpoint zip_with {A B C : Type} (f : A -> B -> C) (l1 : list A) (l2 : list B)
  : list C :=
  match l1, l2 with
  | a :: l1', b :: l2' => f a b :: zip_with f l1' l2'
  | _, _ => []
  end.

(** [data.empty]: one of the two axes has length zero. *)
Definition DataFrame_empty (data : DataFrame) : bool :=
  match rows data, columns data with
  | [], _ | _, [] => true
  | _, _ => false
  end.

(** [pd.DataFrame()]. *)
Definition DataFrame_new : DataFrame := mkDataFrame [] [].

(** [data.iloc[0]]: the first row, an [IndexError] when there is none. *)
Definition DataFrame_iloc0 (data : DataFrame) : result (list float) :=
  match rows data with
  | [] => Raise IndexError
  | (_, first) :: _ => Return first
  end.

(** [data / row] for a row that carries the labels of [data]'s own columns:
    every column is divided by the row's entry of the same label. *)
Definition DataFrame_div_row (data : DataFrame) (row : list float) : DataFrame :=
  mkDataFrame (columns data)
    (map (fun r => (fst r, zip_with fdiv (snd r) row)) (rows data)).

(** [data * values] for a Python list: the list is laid along the columns by
    position, a [ValueError] unless it has one entry per column. *)
Definition DataFrame_mul_list (data : DataFrame) (values : list float)
  : result DataFrame :=
  if Nat.eqb (length values) (length (columns data))
  then Return (mkDataFrame (columns data)
                 (map (fun r => (fst r, zip_with fmul (snd r) values)) (rows data)))
  else Raise ValueError.

(** [data.sum(axis=1)]: one sum per row, [NaN] skipped. *)
Definition DataFrame_sum_axis1 (data : DataFrame) : Series :=
  map (fun r => (fst r, nansum (snd r))) (rows data).

(** [series * scalar]. *)
Definition Series_mul_scalar (s : Series) (k : float) : Series :=
  map (fun p => (fst p, (snd p ⊗ k)%float)) s.

(** [series - scalar]. *)
Definition Series_sub_scalar (s : Series) (k : float) : Series :=
  map (fun p => (fst p, (snd p ⊖ k)%float)) s.

(** [a / b] for two series over the same index. *)
Definition Series_div (a b : Series) : Series :=
  zip_with (fun p q => (fst p, (snd p ⊘ snd q)%float)) a b.

(** [series.iloc[0]] and [series.iloc[-1]]. *)
Definition Series_iloc0 (s : Series) : result float :=
  match s with
  | [] => Raise IndexError
  | p :: _ => Return (snd p)
  end.

Definition Series_iloc_last (s : Series) : result float :=
  match rev s with
  | [] => Raise IndexError
  | p :: _ => Return (snd p)
  end.

(** [series.pct_change()]: [NaN] on the first date, then the relative change
    from the previous date.  (No forward fill of missing values; the
    releases of pandas that fill agree on a series free of [NaN].) *)
Fixpoint pct_change_from (prev : float) (s : Series) : Series :=
  match s with
  | [] => []
  | (d, v) :: s' => (d, (v ⊘ prev ⊖ Fin 1)%float) :: pct_change_from v s'
  end.

Definition Series_pct_change (s : Series) : Series :=
  match s with
  | [] => []
  | (d, v) :: s' => (d, NaN) :: pct_change_from v s'
  end.

(** [series.dropna()]. *)
Definition Series_dropna (s : Series) : Series :=
  filter (fun p => notna (snd p)) s.

(** [series.mean()], [NaN] skipped. *)
Definition Series_mean (s : Series) : float :=
  let xs := filter notna (Series_values s) in
  match length xs with
  | O => NaN
  | count => (fsum xs ⊘ of_nat count)%float
  end.

(** [series.var()], [NaN] skipped, [ddof=1]: undefined unless more than one
    value is left. *)
Definition Series_var (s : Series) : float :=
  let xs := filter notna (Series_values s) in
  let count := length xs in
  if Nat.leb count 1 then NaN
  else
    let avg := (fsum xs ⊘ of_nat count)%float in
    let sqr := map (fun x => ((avg ⊖ x) ⊗ (avg ⊖ x))%float) xs in
    (fsum sqr ⊘ of_nat (count - 1))%float.

(** [series.std()]. *)
Definition Series_std (s : Series) : float := fsqrt (Series_var s).

Definition fmax (a b : float) : float := if fle a b then b else a.
Definition fmin (a b : float) : float := if fle b a then b else a.

(** [series.cummax()]: the running maximum of the values seen so far; a
    [NaN] stays [NaN] and does not enter the maximum. *)
Fixpoint cummax_from (m : option float) (s : Series) : Series :=
  match s with
  | [] => []
  | (d, v) :: s' =>
      if isnan v then (d, NaN) :: cummax_from m s'
      else
        let m' := match m with None => v | Some y => fmax y v end in
        (d, m') :: cummax_from (Some m') s'
  end.

Definition Series_cummax (s : Series) : Series := cummax_from None s.

(** [series.min()], [NaN] skipped; [NaN] when nothing is left. *)
Definition Series_min (s : Series) : float :=
  match filter notna (Series_values s) with
  | [] => NaN
  | x :: xs => fold_left fmin xs x
  end.

(** ** The helper functions of [main.py] *)

(** [simulate_portfolio], lines 22-26. *)
Definition simulate_portfolio (data : DataFrame) (allocations : list float)
    (initial_investment : float) : result Series :=
  first <- DataFrame_iloc0 data ;;
  let normalized := DataFrame_div_row data first in
  weighted <- DataFrame_mul_list normalized allocations ;;
  let portfolio :=
    Series_mul_scalar (DataFrame_sum_axis1 weighted) initial_investment in
  Return portfolio.

(** The report [calculate_metrics] returns, a 4-tuple in the source. *)
Record Metrics : Type := mkMetrics {
  total_return : float;
  volatility : float;
  sharpe_ratio : float;
  max_drawdown : float
}.

(** [252 ** 0.5]. *)
Definition sqrt_252 : float := fsqrt (Fin 252).

(** [calculate_metrics], lines 28-34. *)
Definition calculate_metrics (portfolio : Series) : result Metrics :=
  let returns := Series_dropna (Series_pct_change portfolio) in
  last <- Series_iloc_last portfolio ;;
  first <- Series_iloc0 portfolio ;;
  let total_return := (last ⊘ first ⊖ Fin 1)%float in
  let volatility := (Series_std returns ⊗ sqrt_252)%float in
  let sharpe_ratio :=
    (Series_mean returns ⊘ Series_std returns ⊗ sqrt_252)%float in
  let max_drawdown :=
    Series_min
      (Series_sub_scalar (Series_div portfolio (Series_cummax portfolio)) (Fin 1)) in
  Return (mkMetrics total_return volatility sharpe_ratio max_drawdown).

(** ** The script around the helpers *)

(** What the sidebar widgets hand to one run of the script. *)
Record Inputs : Type := mkInputs {
  all_stock_options : list ticker;
  (** The comma-separated fields of the allocation text: the number
      [float(x)] reads from the field, [None] when it raises [ValueError]. *)
  alloc_input : list (option float);
  initial_investment : float;
  start_date : date;
  end_date : date
}.

(** The messages of [st.error] that are followed by [st.stop()]. *)
Inductive st_error : Type :=
| SelectAtLeastOne       (* "Please select at least one stock/ETF." *)
| AllocNotNumeric        (* "Allocations must be numeric values separated by commas." *)
| AllocCountMismatch     (* "Number of allocations must match number of tickers." *)
| AllocSumNot100         (* "Allocations must sum up to 100%." *)
| FetchFailed            (* "Failed to fetch data. Please check tickers or date range." *).

(** How a run ends: stopped with a message, killed by an exception nobody
    catches, or with the portfolio chart and the four metrics on screen. *)
Inductive outcome : Type :=
| Stopped (e : st_error)
| Uncaught (e : exn)
| Displayed (portfolio : Series) (m : Metrics).

(** [[float(x)/100 for x in alloc_input.split(",")]], [None] on [ValueError]. *)
Fixpoint parse_allocations (fields : list (option float)) : option (list float) :=
  match fields with
  | [] => Some []
  | None :: _ => None
  | Some x :: fields' =>
      match parse_allocations fields' with
      | None => None
      | Some rest => Some ((x ⊘ Fin 100)%float :: rest)
      end
  end.

(** [abs(sum(allocations) - 1) < 1e-3], line 86. *)
Definition alloc_sum_ok (allocations : list float) : bool :=
  flt (fabs (fsum allocations ⊖ Fin 1)) (Fin (1 / 1000)).

Definition rename_columns (labels : list ticker) (data : DataFrame) : DataFrame :=
  mkDataFrame labels (rows data).

Section Script.

(** The market-data provider: the adjusted-close block of the table
    [yf.download] answers with (its [empty] flag is that of the whole
    answer). *)
Variable yf_download : list ticker -> date -> date -> DataFrame.

(** [fetch_data], lines 10-20. *)
Definition fetch_data (tickers : list ticker) (start_date end_date : date)
  : DataFrame :=
  let data := yf_download tickers start_date end_date in
  if DataFrame_empty data then DataFrame_new
  else
    match tickers with
    | [t] => rename_columns [t] data
    | _ => data
    end.

(** Lines 63-102: the validation of the sidebar inputs, the download, the
    simulation and the metrics. *)
Definition main (ui : Inputs) : outcome :=
  match all_stock_options ui with
  | [] => Stopped SelectAtLeastOne
  | _ :: _ =>
      let ticker_list := all_stock_options ui in
      match parse_allocations (alloc_input ui) with
      | None => Stopped AllocNotNumeric
      | Some allocations =>
          if negb (Nat.eqb (length allocations) (length ticker_list))
          then Stopped AllocCountMismatch
          else if negb (alloc_sum_ok allocations)
          then Stopped AllocSumNot100
          else
            let data := fetch_data ticker_list (start_date ui) (end_date ui) in
            if DataFrame_empty data then Stopped FetchFailed
            else
              match simulate_portfolio data allocations (initial_investment ui) with
              | Raise e => Uncaught e
              | Return portfolio =>
                  match calculate_metrics portfolio with
                  | Raise e => Uncaught e
                  | Return m => Displayed portfolio m
                  end
              end
      end
  end.

End Script.

(** The "Buy More (Add $1,000)" button, lines 130-133. *)
Definition buy_more (data : DataFrame) (allocations : list float)
    (initial_investment : float) : result Series :=
  let initial_investment := (initial_investment ⊕ Fin 1000)%float in
  simulate_portfolio data allocations initial_investment.

(** [round(x, 2)]: the nearest multiple of 0.01, a tie going to the even
    one; an infinity or [NaN] is returned as it is. *)
Definition round_half_even (y : R) : Z :=
  let n := Int_part y in
  let r := y - IZR n in
  if Rltb r (1 / 2) then n
  else if Rltb (1 / 2) r then (n + 1)%Z
  else if Z.even n then n else (n + 1)%Z.

Definition py_round2 (a : float) : float :=
  match a with
  | Fin x => Fin (IZR (round_half_even (x * 100)) / 100)
  | _ => a
  end.

(** [def_alloc], line 72: an equal share in percent for every ticker,
    rounded to two decimals. *)
Definition def_alloc (ticker_list : list ticker) : list float :=
  map (fun _ => py_round2 (Fin 100 ⊘ of_nat (length ticker_list))%float)
    ticker_list.

(** Lines 73-74: the text the allocation box proposes, as the fields line 77
    reads back from it ([str] prints a float so that [float] reads the same
    number). *)
Definition default_alloc_input (ticker_list : list ticker)
  : list (option float) :=
  map Some (def_alloc ticker_list).

(** The "Compare with S&P 500 (SPY)" box, lines 140-142: the benchmark
    portfolio. *)
Definition benchmark_portfolio
    (yf_download : list ticker -> date -> date -> DataFrame)
    (start_date end_date : date) (initial_investment : float) : result Series :=
  let benchmark := fetch_data yf_download ["SPY"%string] start_date end_date in
  simulate_portfolio benchmark [Fin 1] initial_investment.

(** * Vocabulary of the properties *)

(** ** Finite values *)

Definition finite (a : float) : Prop :=
  match a with Fin _ => True | _ => False end.

Definition positive (a : float) : Prop :=
  match a with Fin x => 0 < x | _ => False end.

(** The real number a finite value stands for. *)
Definition to_R (a : float) : R :=
  match a with Fin x => x | _ => 0 end.

Definition nonzero (x : R) : Prop := x <> 0.

Definition Rsum (l : list R) : R := fold_right Rplus 0 l.

(** ** Price tables and allocations *)

(** The price table of the specification: one positive price per column on
    every date. *)
Definition price_table (data : DataFrame) : Prop :=
  Forall (fun r => length (snd r) = length (columns data)
                   /\ Forall positive (snd r)) (rows data).

(** The price of column [j] on the [t]-th date, the weight of column [j],
    and the weighted growth of the portfolio on the [t]-th date. *)
Definition price (data : DataFrame) (t j : nat) : R :=
  to_R (nth j (snd (nth t (rows data) (0%Z, []))) NaN).

Definition weight (allocations : list float) (j : nat) : R :=
  to_R (nth j allocations NaN).

Definition growth (data : DataFrame) (allocations : list float) (t : nat) : R :=
  Rsum (map (fun j => weight allocations j * (price data t j / price data 0 j))
          (seq 0 (length (columns data)))).

(** The list [l] read in the order [sigma] of positions. *)
Definition permute {A : Type} (sigma : list nat) (l : list A) (d : A) : list A :=
  map (fun i => nth i l d) sigma.

(** ** Returns, mean and standard deviation *)

(** The period returns [v_t / v_(t-1) - 1] of a list of values. *)
Fixpoint returns_from (prev : R) (vs : list R) : list R :=
  match vs with
  | [] => []
  | v :: vs' => (v / prev - 1) :: returns_from v vs'
  end.

Definition period_returns (vs : list R) : list R :=
  match vs with
  | [] => []
  | v :: vs' => returns_from v vs'
  end.

(** The mean of a list of reals and the sum of the squared deviations from
    it. *)
Definition mean_R (rs : list R) : R := Rsum rs / INR (length rs).

Definition sum_sq_dev (rs : list R) : R :=
  Rsum (map (fun r => (r - mean_R rs) * (r - mean_R rs)) rs).

(** The mean and the sample standard deviation ([N - 1] in the denominator)
    of the specification, read in the arithmetic of the program: [0 / 0] is
    [NaN]. *)
Definition sample_mean (rs : list R) : float :=
  (Fin (Rsum rs) ⊘ Fin (INR (length rs)))%float.

Definition sample_std (rs : list R) : float :=
  fsqrt (Fin (sum_sq_dev rs) ⊘ Fin (INR (length rs) - 1))%float.

(** The standard deviation pandas gives for a list of finite returns: none
    for no return at all. *)
Definition returns_std (rs : list R) : float :=
  match rs with
  | [] => NaN
  | _ :: _ => sample_std rs
  end.

(** The series that is worth [V] on every date of [dates]. *)
Definition constant_series (dates : list date) (V : R) : Series :=
  map (fun d => (d, Fin V)) dates.

(** ** Drawdowns *)

(** The running maximum of a list of reals, as [cummax] computes it, and
    the list of the drawdowns. *)
Fixpoint running_max_from (m : R) (vs : list R) : list R :=
  match vs with
  | [] => []
  | v :: vs' => Rmax m v :: running_max_from (Rmax m v) vs'
  end.

Definition running_max (vs : list R) : list R :=
  match vs with
  | [] => []
  | v :: vs' => v :: running_max_from v vs'
  end.

Definition drawdowns (vs : list R) : list R :=
  zip_with (fun v m => v / m - 1) vs (running_max vs).

(** The largest of the first [t + 1] values, the drawdown
    [v_t / max(v_1..v_t) - 1] on the [t]-th date, and the series that never
    go down. *)
Definition prefix_max (vs : list R) (t : nat) : R :=
  fold_left Rmax (firstn (S t) vs) (hd 0 vs).

Definition drawdown_at (vs : list R) (t : nat) : R :=
  nth t vs 0 / prefix_max vs t - 1.

Definition nondecreasing (vs : list R) : Prop :=
  forall i j : nat, (i <= j < length vs)%nat -> nth i vs 0 <= nth j vs 0.

(** ** Rejected inputs *)

(** The weights sum to 1 within 1e-3. *)
Definition sums_to_one (allocations : list float) : Prop :=
  exists s : R, fsum allocations = Fin s /\ Rabs (s - 1) < 1 / 1000.

(** The two failures of the specification, as outcomes of the script. *)
Definition InvalidAllocation (o : outcome) : Prop :=
  o = Stopped AllocCountMismatch \/ o = Stopped AllocSumNot100.

Definition EmptyPriceData (o : outcome) : Prop := o = Stopped FetchFailed.

(** A table with zero rows or zero columns. *)
Definition no_rows_or_no_columns (data : DataFrame) : Prop :=
  rows data = [] \/ columns data = [].

(** ** Tables with missing prices *)

(** A positive price, or [NaN] where the provider has none. *)
Definition price_or_gap (a : float) : Prop := positive a \/ a = NaN.

Definition table_with_gaps (data : DataFrame) : Prop :=
  Forall (fun r => length (snd r) = length (columns data)
                   /\ Forall price_or_gap (snd r)) (rows data).

(** The entry of column [j] on the [t]-th date; column [j] is quoted on the
    [t]-th date when it has a price on that date and on the first one. *)
Definition entry (data : DataFrame) (t j : nat) : float :=
  nth j (snd (nth t (rows data) (0%Z, []))) NaN.

Definition quoted (data : DataFrame) (t j : nat) : bool :=
  notna (entry data t j) && notna (entry data 0 j).

(** The weighted growth over the columns quoted on the [t]-th date. *)
Definition growth_quoted (data : DataFrame) (allocations : list float) (t : nat)
  : R :=
  Rsum (map (fun j => if quoted data t j
                      then weight allocations j * (price data t j / price data 0 j)
                      else 0)
          (seq 0 (length (columns data)))).

(** The allocations the script lets through, line 82 to line 88. *)
Definition accepted (ticker_list : list ticker) (allocations : list float)
  : Prop :=
  length allocations = length ticker_list /\ sums_to_one allocations.

(** ** Runs that reach the simulation *)

(** The run passes every test of lines 65 to 99: a ticker is selected, the
    allocation fields are numbers, the allocations are accepted and the
    provider has data. *)
Definition ready (yf_download : list ticker -> date -> date -> DataFrame)
    (ui : Inputs) : Prop :=
  all_stock_options ui <> []
  /\ exists allocations : list float,
       parse_allocations (alloc_input ui) = Some allocations
       /\ accepted (all_stock_options ui) allocations
       /\ DataFrame_empty
            (fetch_data yf_download (all_stock_options ui)
               (start_date ui) (end_date ui)) = false.

(** The table the run simulates on. *)
Definition fetched (yf_download : list ticker -> date -> date -> DataFrame)
    (ui : Inputs) : DataFrame :=
  fetch_data yf_download (all_stock_options ui) (start_date ui) (end_date ui).

(** ** Sample inputs *)

(** The table, the weights and the portfolio of the specification's first
    scenario. *)
Definition scenario_prices : DataFrame :=
  mkDataFrame ["AAPL"%string; "MSFT"%string]
    [ (0%Z, [Fin 100; Fin 50]);
      (1%Z, [Fin 110; Fin 55]);
      (2%Z, [Fin 99; Fin 45]) ].

Definition half_half : list float := [Fin (1 / 2); Fin (1 / 2)].

Definition scenario_values : list R := [10000; 11000; 9450].

Definition scenario_portfolio : Series :=
  [(0%Z, Fin 10000); (1%Z, Fin 11000); (2%Z, Fin 9450)].

(** Three tickers with the allocation text the script proposes for them:
    [round(100/3, 2)], that is 33.33 percent each. *)
Definition three_tickers : DataFrame :=
  mkDataFrame ["AAPL"%string; "MSFT"%string; "SPY"%string]
    [ (0%Z, [Fin 100; Fin 50; Fin 300]);
      (1%Z, [Fin 110; Fin 55; Fin 330]) ].

Definition default_thirds : list float :=
  [Fin (3333 / 10000); Fin (3333 / 10000); Fin (3333 / 10000)].

(** Two orders of one allocation set: 75 percent for AAPL, 25 for MSFT. *)
Definition aapl_first : list (ticker * float) :=
  [("AAPL"%string, Fin (3 / 4)); ("MSFT"%string, Fin (1 / 4))].

Definition msft_first : list (ticker * float) :=
  [("MSFT"%string, Fin (1 / 4)); ("AAPL"%string, Fin (3 / 4))].

(** The inputs of the third scenario: two tickers, 50 and 40 percent; and a
    provider that has no data. *)
Definition scenario_3 : Inputs :=
  mkInputs ["AAPL"%string; "MSFT"%string] [Some (Fin 50); Some (Fin 40)]
    (Fin 10000) 0%Z 365%Z.

Definition no_data (tickers : list ticker) (start_date end_date : date)
  : DataFrame := DataFrame_new.

(** The inputs of the fourth scenario: one ticker at 100 percent; and a
    provider whose table has a single row. *)
Definition scenario_4 : Inputs :=
  mkInputs ["AAPL"%string] [Some (Fin 100)] (Fin 10000) 0%Z 365%Z.

Definition one_row (tickers : list ticker) (start_date end_date : date)
  : DataFrame :=
  mkDataFrame ["Adj Close"%string] [(0%Z, [Fin 100])].

(** The first scenario with no price for AAPL on the second date. *)
Definition prices_with_gap : DataFrame :=
  mkDataFrame ["AAPL"%string; "MSFT"%string]
    [ (0%Z, [Fin 100; Fin 50]);
      (1%Z, [NaN; Fin 55]);
      (2%Z, [Fin 99; Fin 45]) ].

(** Three tickers selected and the allocation box left as proposed. *)
Definition default_three : Inputs :=
  mkInputs ["AAPL"%string; "MSFT"%string; "SPY"%string]
    (default_alloc_input ["AAPL"%string; "MSFT"%string; "SPY"%string])
    (Fin 10000) 0%Z 365%Z.

(** Two tickers at 50 percent each, and a provider that knows only one of
    them. *)
Definition fifty_fifty : Inputs :=
  mkInputs ["AAPL"%string; "MSFT"%string] [Some (Fin 50); Some (Fin 50)]
    (Fin 10000) 0%Z 365%Z.

Definition one_known (tickers : list ticker) (start_date end_date : date)
  : DataFrame :=
  mkDataFrame ["AAPL"%string] [(0%Z, [Fin 100]); (1%Z, [Fin 110])].

(** A provider with three days of SPY. *)
Definition spy_prices (tickers : list ticker) (start_date end_date : date)
  : DataFrame :=
  mkDataFrame ["Adj Close"%string]
    [(0%Z, [Fin 300]); (1%Z, [Fin 330]); (2%Z, [Fin 270])].

(** * The simulation in binary64

    The extended reals compute every finite result exactly.  What depends on
    the rounding of binary64 is stated on a second transcription of
    [simulate_portfolio], of the "Buy More" button and of the allocation
    test: the same lines of [main.py], over the binary64 numbers of the
    kernel, whose operations are those of IEEE 754 (round to nearest, ties
    to even) that Python and NumPy perform. *)

Module B64.
Import PrimFloat.
#[local] Set Warnings "-inexact-float".

(** ** The pandas objects *)

Definition Series := list (date * float).

Record DataFrame : Type := mkDataFrame {
  columns : list ticker;
  rows : list (date * list float)
}.

Definition Series_index (s : Series) : list date := map fst s.

(** Python's [sum]: from 0, left to right. *)
Definition fsum (l : list float) : float := fold_left add l 0%float.

(** A row sum with [skipna=True]: every [NaN] is replaced by zero and the
    entries are added from left to right, the order NumPy follows on a row
    of fewer than eight entries (the script offers six tickers). *)
Definition nansum (l : list float) : float :=
  fsum (map (fun x => if is_nan x then 0%float else x) l).

(** [data.iloc[0]]. *)
Definition DataFrame_iloc0 (data : DataFrame) : result (list float) :=
  match rows data with
  | [] => Raise IndexError
  | (_, first) :: _ => Return first
  end.

(** [data / row]. *)
Definition DataFrame_div_row (data : DataFrame) (row : list float) : DataFrame :=
  mkDataFrame (columns data)
    (map (fun r => (fst r, zip_with div (snd r) row)) (rows data)).

(** [data * values] for a Python list. *)
Definition DataFrame_mul_list (data : DataFrame) (values : list float)
  : result DataFrame :=
  if Nat.eqb (length values) (length (columns data))
  then Return (mkDataFrame (columns data)
                 (map (fun r => (fst r, zip_with mul (snd r) values)) (rows data)))
  else Raise ValueError.

(** [data.sum(axis=1)]. *)
Definition DataFrame_sum_axis1 (data : DataFrame) : Series :=
  map (fun r => (fst r, nansum (snd r))) (rows data).

(** [series * scalar]. *)
Definition Series_mul_scalar (s : Series) (k : float) : Series :=
  map (fun p => (fst p, (snd p * k)%float)) s.

(** ** The lines of [main.py] *)

(** [simulate_portfolio], lines 22-26. *)
Definition simulate_portfolio (data : DataFrame) (allocations : list float)
    (initial_investment : float) : result Series :=
  first <- DataFrame_iloc0 data ;;
  let normalized := DataFrame_div_row data first in
  weighted <- DataFrame_mul_list normalized allocations ;;
  let portfolio :=
    Series_mul_scalar (DataFrame_sum_axis1 weighted) initial_investment in
  Return portfolio.

(** The "Buy More (Add $1,000)" button, lines 130-133. *)
Definition buy_more (data : DataFrame) (allocations : list float)
    (initial_investment : float) : result Series :=
  let initial_investment := (initial_investment + 1000)%float in
  simulate_portfolio data allocations initial_investment.

(** [[float(x)/100 for x in alloc_input.split(",")]], line 77. *)
Fixpoint parse_allocations (fields : list (option float)) : option (list float) :=
  match fields with
  | [] => Some []
  | None :: _ => None
  | Some x :: fields' =>
      match parse_allocations fields' with
      | None => None
      | Some rest => Some ((x / 100)%float :: rest)
      end
  end.

(** [abs(sum(allocations) - 1) < 1e-3], line 86. *)
Definition alloc_sum_ok (allocations : list float) : bool :=
  (abs (fsum allocations - 1) <? 1e-3)%float.

(** ** Vocabulary *)

(** [k * series]. *)
Definition Series_rmul_scalar (k : float) (s : Series) : Series :=
  map (fun p => (fst p, (k * snd p)%float)) s.


(** Line 23 alone: the table divided by its first row. *)
Definition normalized (data : DataFrame) : result DataFrame :=
  first <- DataFrame_iloc0 data ;; Return (DataFrame_div_row data first).








(** The table with its columns taken in the order [sigma]. *)
Definition permute_columns (sigma : list nat) (data : DataFrame) : DataFrame :=
  mkDataFrame (permute sigma (columns data) EmptyString)
    (map (fun r => (fst r, permute sigma (snd r) nan)) (rows data)).

(** The terms a row sum adds up: weight times normalised price, column by
    column. *)
Definition weighted_terms (row first allocations : list float) : list float :=
  zip_with mul (zip_with div row first) allocations.

(** The series whose value on each date is the sum of the date's weighted
    terms, taken in the order [order] gives them, times the investment. *)
Definition sum_of_terms (order : list float -> list float) (data : DataFrame)
    (allocations : list float) (initial_investment : float) : result Series :=
  first <- DataFrame_iloc0 data ;;
  Return (map (fun r => (fst r,
                         (nansum (order (weighted_terms (snd r) first allocations))
                          * initial_investment)%float))
            (rows data)).

(** ** Sample inputs *)

(** The table of the specification's first scenario. *)
Definition scenario_prices : DataFrame :=
  mkDataFrame ["AAPL"%string; "MSFT"%string]
    [ (0%Z, [100; 50]%float);
      (1%Z, [110; 55]%float);
      (2%Z, [99; 45]%float) ].


(** Three tickers over two dates. *)
Definition three_tickers : DataFrame :=
  mkDataFrame ["AAPL"%string; "MSFT"%string; "SPY"%string]
    [ (0%Z, [100; 50; 300]%float);
      (1%Z, [110; 55; 330]%float) ].

(** Two dates and no column. *)
Definition no_columns : DataFrame := mkDataFrame [] [(0%Z, []); (1%Z, [])].

End B64.

(** * Properties *)

(** ** Arithmetic of the extended reals *)

Ltac real_tests :=
  unfold Reqb, Rltb, Rleb in *;
  repeat match goal with
    | |- context [Req_dec_T ?a ?b] => destruct (Req_dec_T a b)
    | |- context [Rlt_dec ?a ?b] => destruct (Rlt_dec a b)
    | |- context [Rle_dec ?a ?b] => destruct (Rle_dec a b)
    | H : context [Req_dec_T ?a ?b] |- _ => destruct (Req_dec_T a b)
    | H : context [Rlt_dec ?a ?b] |- _ => destruct (Rlt_dec a b)
    | H : context [Rle_dec ?a ?b] |- _ => destruct (Rle_dec a b)
    end.

Ltac float_arith :=
  unfold fsub, fdiv, fmul, fadd, fneg, fabs, fsqrt, flt, fle, inf_times, inf in *;
  real_tests; simpl in *;
  try reflexivity; try discriminate; try (exfalso; nra);
  try (f_equal; first [ lra | nra | field; lra ]).

Lemma Reqb_true (x y : R) : x = y -> Reqb x y = true.
Proof. intros; real_tests; easy. Qed.

Lemma Reqb_false (x y : R) : x <> y -> Reqb x y = false.
Proof. intros; real_tests; easy. Qed.

Lemma Rltb_true (x y : R) : x < y -> Rltb x y = true.
Proof. intros; real_tests; easy. Qed.

Lemma Rltb_false (x y : R) : ~ x < y -> Rltb x y = false.
Proof. intros; real_tests; easy. Qed.

Lemma Rleb_true (x y : R) : x <= y -> Rleb x y = true.
Proof. intros; real_tests; easy. Qed.

Lemma Rleb_false (x y : R) : ~ x <= y -> Rleb x y = false.
Proof. intros; real_tests; easy. Qed.

(** Evaluation of the model on explicit numbers: the list and record
    structure reduces, the tests on reals are settled by [lra]. *)
Ltac settle_real_tests :=
  repeat match goal with
    | |- context [Reqb ?a ?b] =>
        first [ rewrite (Reqb_true a b) by lra | rewrite (Reqb_false a b) by lra ]
    | |- context [Rltb ?a ?b] =>
        first [ rewrite (Rltb_true a b) by lra | rewrite (Rltb_false a b) by lra ]
    | |- context [Rleb ?a ?b] =>
        first [ rewrite (Rleb_true a b) by lra | rewrite (Rleb_false a b) by lra ]
    end.

Ltac float_eval :=
  repeat (simpl; settle_real_tests).

Lemma fdiv_fin (x y : R) : y <> 0 -> (Fin x ⊘ Fin y)%float = Fin (x / y).
Proof. intros; float_arith. Qed.

Lemma fadd_0_l (a : float) : (Fin 0 ⊕ a)%float = a.
Proof. destruct a; float_arith. Qed.

(** ** Tables of positive prices and finite weights *)

Lemma positive_finite (a : float) : positive a -> finite a.
Proof. destruct a; simpl; tauto. Qed.

Lemma finite_to_R (a : float) : finite a -> a = Fin (to_R a).
Proof. destruct a; simpl; tauto. Qed.

Lemma fold_left_Rplus (l : list R) (a : R) : fold_left Rplus l a = a + Rsum l.
Proof.
  revert a; induction l as [|x l IH]; intros a; simpl.
  - lra.
  - rewrite IH. lra.
Qed.

Lemma fold_left_fadd_fin (l : list R) (a : R) :
  fold_left fadd (map Fin l) (Fin a) = Fin (fold_left Rplus l a).
Proof.
  revert a; induction l as [|x l IH]; intros a; simpl; [reflexivity|apply IH].
Qed.

Lemma fsum_fin (l : list R) : fsum (map Fin l) = Fin (Rsum l).
Proof.
  unfold fsum. rewrite fold_left_fadd_fin, fold_left_Rplus. f_equal. lra.
Qed.

Lemma nansum_fin (l : list R) : nansum (map Fin l) = Fin (Rsum l).
Proof.
  unfold nansum. rewrite map_map. simpl. apply fsum_fin.
Qed.

(** One row of the weighted, normalised table. *)
Lemma weighted_row (first : list float) :
  Forall positive first ->
  forall row ws : list float,
    length row = length first -> length ws = length first ->
    Forall positive row -> Forall finite ws ->
    zip_with fmul (zip_with fdiv row first) ws
    = map Fin
        (map (fun j => to_R (nth j ws NaN)
                       * (to_R (nth j row NaN) / to_R (nth j first NaN)))
           (seq 0 (length first))).
Proof.
  induction 1 as [|f first Hf Hfirst IH]; intros row ws Hrow Hws Hpos Hfin.
  - destruct row; [reflexivity|discriminate].
  - destruct row as [|p row]; [discriminate|].
    destruct ws as [|w ws]; [discriminate|].
    inversion Hpos as [|? ? Hp Hpos']; subst.
    inversion Hfin as [|? ? Hw Hfin']; subst.
    cbn [zip_with length seq map]. f_equal.
    + destruct f as [f'| | |], p as [p'| | |], w as [w'| | |];
        simpl in Hf, Hp, Hw; try contradiction.
      cbn [to_R nth]. rewrite fdiv_fin by lra. simpl. f_equal. lra.
    + rewrite IH by (simpl in *; assumption || lia).
      rewrite <- seq_shift, !map_map. reflexivity.
Qed.

Lemma nth_rows_snd (rs : list (date * list float)) (t : nat) :
  snd (nth t rs (0%Z, [])) = nth t (map snd rs) [].
Proof. now rewrite <- (map_nth snd). Qed.

Lemma map_seq_nth {A B : Type} (f : A -> B) (l : list A) (d : A) :
  map f l = map (fun t => f (nth t l d)) (seq 0 (length l)).
Proof.
  induction l as [|x l IH]; [reflexivity|].
  cbn [length seq map nth]. f_equal.
  rewrite <- seq_shift, map_map. exact IH.
Qed.

Lemma nth_map_seq {B : Type} (f : nat -> B) (n t : nat) (d : B) :
  (t < n)%nat -> nth t (map f (seq 0 n)) d = f t.
Proof.
  intros Ht. rewrite (nth_indep _ d (f O)) by now rewrite length_map, length_seq.
  now rewrite map_nth, seq_nth.
Qed.

(** [simulate_portfolio] on a table of positive prices and finite weights. *)
Lemma simulate_portfolio_valid (data : DataFrame) (allocations : list float)
    (I : float) :
  price_table data -> rows data <> [] ->
  length allocations = length (columns data) -> Forall finite allocations ->
  simulate_portfolio data allocations I
  = Return (map (fun t => (nth t (index data) 0%Z,
                           (Fin (growth data allocations t) ⊗ I)%float))
              (seq 0 (length (rows data)))).
Proof.
  intros Htable Hrows Hlen Hfin. unfold simulate_portfolio, DataFrame_iloc0.
  destruct data as [labels rs]; cbn [rows columns] in *.
  destruct rs as [|[d0 first] rs]; [contradiction|]. cbn [bind].
  unfold DataFrame_mul_list, DataFrame_div_row; cbn [columns rows].
  rewrite Hlen, Nat.eqb_refl. cbn [bind]. f_equal.
  unfold Series_mul_scalar, DataFrame_sum_axis1; cbn [rows].
  rewrite !map_map. cbn [fst snd].
  assert (Hfirst : length first = length labels /\ Forall positive first)
    by (inversion Htable; assumption).
  destruct Hfirst as [Hfl Hfp].
  set (rs' := (d0, first) :: rs) in *.
  rewrite (map_seq_nth _ rs' (0%Z, [])).
  apply map_ext_in; intros t Ht. apply in_seq in Ht.
  unfold index; cbn [rows]. rewrite <- (map_nth fst). cbn [fst]. do 2 f_equal.
  assert (Hrow : length (snd (nth t rs' (0%Z, []))) = length labels
                 /\ Forall positive (snd (nth t rs' (0%Z, [])))).
  { unfold price_table in Htable; cbn [rows columns] in Htable.
    rewrite Forall_forall in Htable. apply Htable, nth_In. lia. }
  destruct Hrow as [Hrl Hrp].
  rewrite weighted_row; try assumption; try congruence.
  rewrite nansum_fin. unfold growth, price, weight; cbn [rows columns].
  rewrite Hfl. reflexivity.
Qed.

(** The first scenario of the specification. *)
Example scenario_1 :
  simulate_portfolio scenario_prices half_half (Fin 10000)
  = Return [(0%Z, Fin 10000); (1%Z, Fin 11000); (2%Z, Fin 9450)].
Proof.
  unfold simulate_portfolio, scenario_prices, half_half. float_eval.
  unfold Series_mul_scalar, DataFrame_sum_axis1, nansum, fsum. float_eval.
  repeat (f_equal; try lra).
Qed.

(** ** The value of the simulated portfolio (C1) *)

(** C1.  On a table of positive prices with at least one row, for a list of
    one finite weight per column and an initial investment [I],
    [simulate_portfolio] returns a series over the dates of the table, in
    the same order, whose value on the [t]-th date is the sum over the
    columns [j] of [weight j * (price t j / price 0 j)], times [I]. *)
Theorem simulate_portfolio_weighted_growth :
  forall (data : DataFrame) (allocations : list float) (I : R),
    price_table data -> rows data <> [] -> columns data <> [] ->
    length allocations = length (columns data) -> Forall finite allocations ->
    exists s : Series,
      simulate_portfolio data allocations (Fin I) = Return s
      /\ Series_index s = index data
      /\ forall t : nat, (t < length (index data))%nat ->
           nth t (Series_values s) NaN = Fin (growth data allocations t * I).
Proof.
  intros data allocations I Htable Hrows _ Hlen Hfin.
  rewrite (simulate_portfolio_valid data allocations (Fin I)) by assumption.
  eexists; split; [reflexivity|]. split.
  - unfold Series_index. rewrite map_map. cbn [fst].
    replace (length (rows data)) with (length (index data))
      by (unfold index; apply length_map).
    rewrite <- (map_seq_nth (fun d => d)). apply map_id.
  - intros t Ht. unfold index in Ht. rewrite length_map in Ht.
    unfold Series_values. rewrite map_map. cbn [snd].
    now rewrite nth_map_seq.
Qed.

Lemma scenario_prices_table : price_table scenario_prices.
Proof. repeat constructor; simpl; lra. Qed.

Lemma simulate_portfolio_weighted_growth_witness :
  exists s : Series,
    simulate_portfolio scenario_prices half_half (Fin 10000) = Return s
    /\ Series_index s = index scenario_prices
    /\ forall t : nat, (t < length (index scenario_prices))%nat ->
         nth t (Series_values s) NaN
         = Fin (growth scenario_prices half_half t * 10000).
Proof.
  apply simulate_portfolio_weighted_growth.
  - repeat constructor; simpl; lra.
  - discriminate.
  - discriminate.
  - reflexivity.
  - repeat constructor.
Defined.

(** ** The value on the first date (C3) *)

Lemma growth_first (data : DataFrame) (allocations : list float) :
  price_table data -> rows data <> [] ->
  length allocations = length (columns data) ->
  growth data allocations 0 = Rsum (map to_R allocations).
Proof.
  intros Htable Hrows Hlen. unfold growth.
  rewrite (map_seq_nth to_R allocations NaN), Hlen. f_equal.
  apply map_ext_in; intros j Hj. apply in_seq in Hj. unfold weight.
  destruct data as [labels rs]; cbn [rows columns] in *.
  destruct rs as [|[d0 first] rs]; [contradiction|].
  inversion Htable as [|? ? [Hfl Hfp] _]; subst. cbn [snd columns] in *.
  unfold price; cbn [rows nth snd].
  rewrite Forall_nth in Hfp. specialize (Hfp j NaN).
  destruct (nth j first NaN); simpl in Hfp |- *; try (exfalso; apply Hfp; lia).
  assert (0 < x) by (apply Hfp; lia). field. lra.
Qed.

(** C3, as the code has it.  On a table of positive prices, with one finite
    weight per column, the first value of the simulated series is the
    initial investment times the sum of the weights; when the weights sum
    to 1 within 1e-3, it is the initial investment within a relative
    tolerance of 1e-3. *)
Theorem simulate_portfolio_first_value :
  forall (data : DataFrame) (allocations : list float) (I : R),
    price_table data -> rows data <> [] ->
    length allocations = length (columns data) -> Forall finite allocations ->
    Rabs (Rsum (map to_R allocations) - 1) < 1 / 1000 ->
    exists s : Series,
      simulate_portfolio data allocations (Fin I) = Return s
      /\ Series_iloc0 s = Return (Fin (Rsum (map to_R allocations) * I))
      /\ Rabs (Rsum (map to_R allocations) * I - I) <= 1 / 1000 * Rabs I.
Proof.
  intros data allocations I Htable Hrows Hlen Hfin Hsum.
  rewrite (simulate_portfolio_valid data allocations (Fin I)) by assumption.
  eexists; split; [reflexivity|]. split.
  - destruct (rows data) as [|r rs] eqn:E; [contradiction|].
    cbn [length seq map Series_iloc0 snd].
    rewrite growth_first by (rewrite ?E; assumption || discriminate).
    reflexivity.
  - replace (Rsum (map to_R allocations) * I - I)
      with ((Rsum (map to_R allocations) - 1) * I) by ring.
    rewrite Rabs_mult. apply Rmult_le_compat_r; [apply Rabs_pos|lra].
Qed.

Lemma simulate_portfolio_first_value_witness :
  exists s : Series,
    simulate_portfolio scenario_prices half_half (Fin 10000) = Return s
    /\ Series_iloc0 s = Return (Fin (Rsum (map to_R half_half) * 10000))
    /\ Rabs (Rsum (map to_R half_half) * 10000 - 10000) <= 1 / 1000 * Rabs 10000.
Proof.
  apply simulate_portfolio_first_value.
  - repeat constructor; simpl; lra.
  - discriminate.
  - reflexivity.
  - repeat constructor.
  - simpl. replace (1 / 2 + (1 / 2 + 0) - 1) with 0 by lra.
    rewrite Rabs_R0. lra.
Defined.

Lemma Rabs_lt_iff (x e : R) : Rabs x < e <-> - e < x < e.
Proof.
  unfold Rabs; destruct (Rcase_abs x); lra.
Qed.

Lemma Rabs_le_iff (x e : R) : Rabs x <= e <-> - e <= x <= e.
Proof.
  unfold Rabs; destruct (Rcase_abs x); lra.
Qed.

(** C3 as stated fails: weights that sum to 0.9999 pass the 1e-3 test, and
    the first value of the series is then 9999 for an investment of 10000,
    a relative gap of 1e-4. *)
Lemma first_value_not_within_1e9 :
  price_table three_tickers
  /\ length default_thirds = length (columns three_tickers)
  /\ Rabs (Rsum (map to_R default_thirds) - 1) < 1 / 1000
  /\ (s <- simulate_portfolio three_tickers default_thirds (Fin 10000) ;;
      Series_iloc0 s) = Return (Fin 9999)
  /\ ~ Rabs (9999 - 10000) <= 1 / 1000000000 * Rabs 10000.
Proof.
  split; [repeat constructor; simpl; lra|].
  split; [reflexivity|].
  split; [apply Rabs_lt_iff; simpl; lra|].
  split.
  - unfold simulate_portfolio, three_tickers, default_thirds. float_eval.
    unfold nansum, fsum. float_eval. f_equal. f_equal. lra.
  - rewrite Rabs_le_iff, (Rabs_right 10000) by lra. lra.
Qed.

(** ** Weights are matched with columns by position (C7) *)

Lemma length_zip_with {A B C : Type} (f : A -> B -> C) (l1 : list A) (l2 : list B) :
  length l1 = length l2 -> length (zip_with f l1 l2) = length l1.
Proof.
  revert l2; induction l1 as [|a l1 IH]; intros [|b l2] H; simpl in *;
    try discriminate; [reflexivity|]. f_equal. apply IH. lia.
Qed.

Lemma nth_zip_with {A B C : Type} (f : A -> B -> C) (l1 : list A) (l2 : list B)
    (i : nat) (a : A) (b : B) (c : C) :
  (i < length l1)%nat -> (i < length l2)%nat ->
  nth i (zip_with f l1 l2) c = f (nth i l1 a) (nth i l2 b).
Proof.
  revert l2 i; induction l1 as [|x l1 IH]; intros [|y l2] [|i] H1 H2;
    simpl in *; try lia; [reflexivity|]. apply IH; lia.
Qed.

Lemma zip_with_permute {A B C : Type} (f : A -> B -> C) (sigma : list nat)
    (l1 : list A) (l2 : list B) (a : A) (b : B) (c : C) :
  Forall (fun i => (i < length l1)%nat /\ (i < length l2)%nat) sigma ->
  zip_with f (permute sigma l1 a) (permute sigma l2 b)
  = permute sigma (zip_with f l1 l2) c.
Proof.
  induction 1 as [|i sigma [H1 H2] _ IH]; [reflexivity|].
  unfold permute in *; cbn [map zip_with]. f_equal; [|exact IH].
  symmetry. now apply nth_zip_with.
Qed.

Lemma permute_Permutation {A : Type} (sigma : list nat) (l : list A) (d : A) :
  Permutation sigma (seq 0 (length l)) -> Permutation (permute sigma l d) l.
Proof.
  intros H. unfold permute.
  assert (E : map (fun i => nth i l d) (seq 0 (length l)) = l)
    by (rewrite <- (map_seq_nth (fun x => x)); apply map_id).
  apply Permutation_trans with (map (fun i => nth i l d) (seq 0 (length l))).
  - now apply Permutation_map.
  - rewrite E. apply Permutation_refl.
Qed.

Lemma permutation_bound (sigma : list nat) (n : nat) :
  Permutation sigma (seq 0 n) -> Forall (fun i => (i < n)%nat) sigma.
Proof.
  intros H. apply Forall_forall; intros i Hi.
  apply (Permutation_in _ H), in_seq in Hi. lia.
Qed.

(** C7 as stated fails: [simulate_portfolio] receives the weights alone, in
    the order of the pairs, so the two orders of the same allocation set give
    different series over the same table. *)
Lemma weights_matched_by_position :
  Permutation aapl_first msft_first
  /\ simulate_portfolio scenario_prices (map snd aapl_first) (Fin 10000)
     = Return [(0%Z, Fin 10000); (1%Z, Fin 11000); (2%Z, Fin 9675)]
  /\ simulate_portfolio scenario_prices (map snd msft_first) (Fin 10000)
     = Return [(0%Z, Fin 10000); (1%Z, Fin 11000); (2%Z, Fin 9225)]
  /\ simulate_portfolio scenario_prices (map snd aapl_first) (Fin 10000)
     <> simulate_portfolio scenario_prices (map snd msft_first) (Fin 10000).
Proof.
  assert (Ha : simulate_portfolio scenario_prices (map snd aapl_first) (Fin 10000)
               = Return [(0%Z, Fin 10000); (1%Z, Fin 11000); (2%Z, Fin 9675)]).
  { unfold simulate_portfolio, scenario_prices, aapl_first. float_eval.
    unfold Series_mul_scalar, DataFrame_sum_axis1, nansum, fsum. float_eval.
    repeat (f_equal; try lra). }
  assert (Hb : simulate_portfolio scenario_prices (map snd msft_first) (Fin 10000)
               = Return [(0%Z, Fin 10000); (1%Z, Fin 11000); (2%Z, Fin 9225)]).
  { unfold simulate_portfolio, scenario_prices, msft_first. float_eval.
    unfold Series_mul_scalar, DataFrame_sum_axis1, nansum, fsum. float_eval.
    repeat (f_equal; try lra). }
  split; [apply perm_swap|]. split; [exact Ha|]. split; [exact Hb|].
  rewrite Ha, Hb. intros H. inversion H as [H']. lra.
Qed.

(** ** Series of finite values *)

Lemma Series_values_dropna (s : Series) :
  Series_values (Series_dropna s) = filter notna (Series_values s).
Proof.
  induction s as [|[d v] s IH]; [reflexivity|].
  unfold Series_dropna, Series_values in *; simpl.
  destruct (notna v); simpl; now rewrite IH.
Qed.

Lemma filter_notna_fin (l : list R) : filter notna (map Fin l) = map Fin l.
Proof.
  induction l as [|x l IH]; [reflexivity|]. simpl. now rewrite IH.
Qed.

Lemma fsub_fin (x y : R) : (Fin x ⊖ Fin y)%float = Fin (x - y).
Proof. float_arith. Qed.

Lemma pct_change_from_values (s : Series) :
  forall (vs : list R) (prev : R),
    Series_values s = map Fin vs -> prev <> 0 -> Forall nonzero vs ->
    Series_values (pct_change_from (Fin prev) s) = map Fin (returns_from prev vs).
Proof.
  induction s as [|[d v] s IH]; intros [|x vs] prev Hs Hprev Hvs;
    try discriminate; [reflexivity|].
  injection Hs as -> Hs. inversion Hvs as [|? ? Hx Hvs']; subst.
  cbn [pct_change_from returns_from]. unfold Series_values in *.
  cbn [map snd]. rewrite fdiv_fin, fsub_fin by exact Hprev.
  f_equal. now apply IH.
Qed.

Lemma returns_values (s : Series) (vs : list R) :
  Series_values s = map Fin vs -> Forall nonzero vs ->
  Series_values (Series_dropna (Series_pct_change s)) = map Fin (period_returns vs).
Proof.
  intros Hs Hvs. rewrite Series_values_dropna.
  destruct s as [|[d v] s], vs as [|x vs]; try discriminate; [reflexivity|].
  injection Hs as -> Hs. inversion Hvs as [|? ? Hx Hvs']; subst.
  cbn [Series_pct_change period_returns]. unfold Series_values. cbn [map snd filter notna isnan negb].
  fold (Series_values (pct_change_from (Fin x) s)).
  rewrite (pct_change_from_values s vs x) by assumption.
  apply filter_notna_fin.
Qed.

Lemma Series_mean_fin (s : Series) (rs : list R) :
  Series_values s = map Fin rs -> rs <> [] ->
  Series_mean s = Fin (mean_R rs).
Proof.
  intros Hs Hrs. unfold Series_mean. rewrite Hs, filter_notna_fin, length_map.
  destruct rs as [|r rs]; [contradiction|]. cbn [length].
  rewrite fsum_fin. unfold of_nat. rewrite fdiv_fin; [reflexivity|].
  apply not_0_INR. discriminate.
Qed.

Lemma Series_mean_nil (s : Series) :
  Series_values s = [] -> Series_mean s = NaN.
Proof. intros Hs. unfold Series_mean. now rewrite Hs. Qed.

Lemma Series_var_fin (s : Series) (rs : list R) :
  Series_values s = map Fin rs -> (2 <= length rs)%nat ->
  Series_var s = Fin (sum_sq_dev rs / (INR (length rs) - 1)).
Proof.
  intros Hs Hlen. unfold Series_var. rewrite Hs, filter_notna_fin, length_map.
  destruct (Nat.leb_spec (length rs) 1) as [H|H]; [lia|].
  rewrite fsum_fin. unfold of_nat.
  assert (Hn : INR (length rs) <> 0) by (apply not_0_INR; lia).
  rewrite fdiv_fin by exact Hn. fold (mean_R rs).
  rewrite map_map.
  rewrite (map_ext _ (fun x => Fin ((x - mean_R rs) * (x - mean_R rs)))).
  2:{ intros x. rewrite fsub_fin. simpl. f_equal. ring. }
  rewrite <- (map_map (fun x => (x - mean_R rs) * (x - mean_R rs)) Fin).
  rewrite fsum_fin. fold (sum_sq_dev rs).
  rewrite minus_INR by lia. change (INR 1) with 1.
  apply fdiv_fin.
  assert (2 <= INR (length rs)) by (change 2 with (INR 2); apply le_INR; lia).
  lra.
Qed.

Lemma Series_var_short (s : Series) (rs : list R) :
  Series_values s = map Fin rs -> (length rs <= 1)%nat -> Series_var s = NaN.
Proof.
  intros Hs Hlen. unfold Series_var. rewrite Hs, filter_notna_fin, length_map.
  destruct (Nat.leb_spec (length rs) 1) as [H|H]; [reflexivity|lia].
Qed.

Lemma sqrt_252_fin : sqrt_252 = Fin (sqrt 252).
Proof. unfold sqrt_252, fsqrt. now rewrite Rltb_false by lra. Qed.

Lemma Series_iloc0_values (s : Series) (v : float) (vs : list float) :
  Series_values s = v :: vs -> Series_iloc0 s = Return v.
Proof.
  destruct s as [|[d x] s]; [discriminate|]. intros H. injection H as -> _.
  reflexivity.
Qed.

Lemma Series_iloc_last_values (s : Series) (v : float) (vs : list float) :
  Series_values s = v :: vs -> Series_iloc_last s = Return (last vs v).
Proof.
  intros H. unfold Series_iloc_last.
  assert (Hrev : map snd (rev s) = rev (v :: vs))
    by (rewrite map_rev; f_equal; exact H).
  destruct (rev s) as [|p r] eqn:E.
  - apply (f_equal (@rev _)) in E. rewrite rev_involutive in E. subst s.
    discriminate.
  - f_equal. cbn [map] in Hrev.
    destruct (exists_last (l := v :: vs)) as [l' [x Hx]]; [discriminate|].
    rewrite Hx, rev_unit in Hrev. injection Hrev as -> _.
    destruct l' as [|y l'].
    + injection Hx as -> ->. reflexivity.
    + injection Hx as -> ->. now rewrite last_last.
Qed.

Lemma fmax_fin (x y : R) : fmax (Fin x) (Fin y) = Fin (Rmax x y).
Proof.
  unfold fmax, fle, Rleb, Rmax. now destruct (Rle_dec x y).
Qed.

Lemma fmin_fin (x y : R) : fmin (Fin x) (Fin y) = Fin (Rmin x y).
Proof.
  unfold fmin, fle, Rleb, Rmin.
  destruct (Rle_dec y x), (Rle_dec x y); try reflexivity; f_equal; lra.
Qed.

Lemma cummax_from_values (s : Series) :
  forall (vs : list R) (m : R),
    Series_values s = map Fin vs ->
    Series_values (cummax_from (Some (Fin m)) s) = map Fin (running_max_from m vs).
Proof.
  induction s as [|[d v] s IH]; intros [|x vs] m Hs; try discriminate;
    [reflexivity|].
  injection Hs as -> Hs. cbn [cummax_from isnan running_max_from].
  rewrite fmax_fin. unfold Series_values in *. cbn [map snd]. f_equal.
  now apply IH.
Qed.

Lemma Series_cummax_values (s : Series) (vs : list R) :
  Series_values s = map Fin vs ->
  Series_values (Series_cummax s) = map Fin (running_max vs).
Proof.
  destruct s as [|[d v] s], vs as [|x vs]; intros Hs; try discriminate;
    [reflexivity|].
  injection Hs as -> Hs. unfold Series_cummax.
  cbn [cummax_from isnan running_max]. unfold Series_values. cbn [map snd].
  f_equal. now apply cummax_from_values.
Qed.

Lemma Series_div_values (a b : Series) :
  Series_values (Series_div a b)
  = zip_with fdiv (Series_values a) (Series_values b).
Proof.
  revert b; induction a as [|p a IH]; intros [|q b]; try reflexivity.
  unfold Series_div, Series_values in *. cbn [zip_with map snd]. f_equal.
  apply IH.
Qed.

Lemma Series_sub_scalar_values (s : Series) (k : float) :
  Series_values (Series_sub_scalar s k)
  = map (fun x => (x ⊖ k)%float) (Series_values s).
Proof.
  unfold Series_sub_scalar, Series_values. now rewrite !map_map.
Qed.

Lemma running_max_from_nonzero (vs : list R) :
  forall m, nonzero m -> Forall nonzero vs ->
            Forall nonzero (running_max_from m vs).
Proof.
  induction vs as [|v vs IH]; intros m Hm Hvs; [constructor|].
  inversion Hvs as [|? ? Hv Hvs']; subst. cbn [running_max_from].
  assert (nonzero (Rmax m v)) by (unfold Rmax; now destruct (Rle_dec m v)).
  constructor; [assumption|]. now apply IH.
Qed.

Lemma running_max_nonzero (vs : list R) :
  Forall nonzero vs -> Forall nonzero (running_max vs).
Proof.
  destruct vs as [|v vs]; intros H; [constructor|].
  inversion H; subst. constructor; [assumption|].
  now apply running_max_from_nonzero.
Qed.

Lemma zip_fdiv_sub_fin (vs : list R) :
  forall ms : list R,
    Forall nonzero ms ->
    map (fun x => (x ⊖ Fin 1)%float) (zip_with fdiv (map Fin vs) (map Fin ms))
    = map Fin (zip_with (fun v m => v / m - 1) vs ms).
Proof.
  induction vs as [|v vs IH]; intros [|m ms] Hms; try reflexivity.
  inversion Hms as [|? ? Hm Hms']; subst. cbn [map zip_with].
  rewrite fdiv_fin, fsub_fin by exact Hm. f_equal. now apply IH.
Qed.

Lemma drawdown_values (s : Series) (vs : list R) :
  Series_values s = map Fin vs -> Forall nonzero vs ->
  Series_values (Series_sub_scalar (Series_div s (Series_cummax s)) (Fin 1))
  = map Fin (drawdowns vs).
Proof.
  intros Hs Hvs.
  rewrite Series_sub_scalar_values, Series_div_values.
  rewrite (Series_cummax_values s vs Hs), Hs.
  apply zip_fdiv_sub_fin. now apply running_max_nonzero.
Qed.

Lemma fold_left_fmin_fin (xs : list R) (x : R) :
  fold_left fmin (map Fin xs) (Fin x) = Fin (fold_left Rmin xs x).
Proof.
  revert x; induction xs as [|y xs IH]; intros x; [reflexivity|].
  cbn [map fold_left]. rewrite fmin_fin. apply IH.
Qed.

Lemma Series_min_fin (s : Series) (x : R) (xs : list R) :
  Series_values s = map Fin (x :: xs) ->
  Series_min s = Fin (fold_left Rmin xs x).
Proof.
  intros Hs. unfold Series_min. rewrite Hs, filter_notna_fin.
  cbn [map]. apply fold_left_fmin_fin.
Qed.

Lemma Series_mean_sample (s : Series) (rs : list R) :
  Series_values s = map Fin rs -> Series_mean s = sample_mean rs.
Proof.
  intros Hs. destruct rs as [|r rs].
  - rewrite Series_mean_nil by exact Hs. unfold sample_mean. simpl.
    now rewrite Reqb_true by reflexivity.
  - rewrite (Series_mean_fin s (r :: rs)) by (assumption || discriminate).
    unfold sample_mean, mean_R. symmetry. apply fdiv_fin.
    apply not_0_INR. discriminate.
Qed.

Lemma Series_std_sample (s : Series) (rs : list R) :
  Series_values s = map Fin rs -> rs <> [] -> Series_std s = sample_std rs.
Proof.
  intros Hs Hrs. unfold Series_std, sample_std.
  destruct rs as [|r [|r' rs]]; [contradiction| |].
  - rewrite (Series_var_short s [r]) by (assumption || (simpl; lia)).
    unfold sum_sq_dev, mean_R. cbn [length map Rsum fold_right INR].
    unfold fdiv. rewrite !Reqb_true; [reflexivity| |lra].
    field.
  - rewrite (Series_var_fin s (r :: r' :: rs)) by (assumption || (simpl; lia)).
    rewrite fdiv_fin; [reflexivity|].
    assert (2 <= INR (length (r :: r' :: rs)))
      by (change 2 with (INR 2); apply le_INR; simpl; lia).
    lra.
Qed.

Lemma Series_std_returns (s : Series) (rs : list R) :
  Series_values s = map Fin rs -> Series_std s = returns_std rs.
Proof.
  intros Hs. destruct rs as [|r rs].
  - unfold Series_std. now rewrite (Series_var_short s []) by (assumption || (simpl; lia)).
  - apply Series_std_sample; [assumption|discriminate].
Qed.

(** [calculate_metrics] on a series of finite, non-zero values. *)
Lemma calculate_metrics_finite (s : Series) (v0 : R) (vs : list R) :
  Series_values s = map Fin (v0 :: vs) -> Forall nonzero (v0 :: vs) ->
  calculate_metrics s
  = Return
      (mkMetrics
         (Fin (last vs v0 / v0 - 1))
         (returns_std (returns_from v0 vs) ⊗ Fin (sqrt 252))%float
         (sample_mean (returns_from v0 vs) ⊘ returns_std (returns_from v0 vs)
          ⊗ Fin (sqrt 252))%float
         (Fin (fold_left Rmin
                 (zip_with (fun v m => v / m - 1) vs (running_max_from v0 vs))
                 (v0 / v0 - 1)))).
Proof.
  intros Hs Hnz. unfold calculate_metrics.
  cbn [map] in Hs.
  rewrite (Series_iloc_last_values s _ _ Hs), (Series_iloc0_values s _ _ Hs).
  cbn [bind]. f_equal.
  pose proof (returns_values s (v0 :: vs) Hs Hnz) as Hr.
  cbn [period_returns] in Hr.
  rewrite (Series_std_returns _ _ Hr), (Series_mean_sample _ _ Hr), sqrt_252_fin.
  rewrite (Series_min_fin _ (v0 / v0 - 1)
             (zip_with (fun v m => v / m - 1) vs (running_max_from v0 vs))).
  2:{ now rewrite (drawdown_values s (v0 :: vs)). }
  f_equal.
  assert (Hv0 : v0 <> 0) by now inversion Hnz.
  replace (last (map Fin vs) (Fin v0)) with (Fin (last vs v0)).
  - now rewrite fdiv_fin, fsub_fin.
  - clear. revert v0. induction vs as [|v vs IH]; intros v0; [reflexivity|].
    cbn [map]. destruct vs as [|v' vs]; [reflexivity|].
    change (last (v :: v' :: vs) v0) with (last (v' :: vs) v0).
    change (last (Fin v :: map Fin (v' :: vs)) (Fin v0))
      with (last (map Fin (v' :: vs)) (Fin v0)).
    apply IH.
Qed.

(** ** The formulas of the metrics (C2) *)

Lemma length_returns_from (vs : list R) :
  forall prev, length (returns_from prev vs) = length vs.
Proof.
  induction vs as [|v vs IH]; intros prev; simpl; [reflexivity|].
  now rewrite IH.
Qed.

Lemma length_period_returns (vs : list R) :
  length (period_returns vs) = (length vs - 1)%nat.
Proof.
  destruct vs as [|v vs]; [reflexivity|]. simpl.
  rewrite length_returns_from. lia.
Qed.

Lemma Rsum_squares_nonneg (f : R -> R) (l : list R) :
  0 <= Rsum (map (fun r => f r * f r) l).
Proof.
  induction l as [|x l IH]; simpl; [lra|]. nra.
Qed.

Lemma sum_sq_dev_nonneg (rs : list R) : 0 <= sum_sq_dev rs.
Proof.
  unfold sum_sq_dev. apply (Rsum_squares_nonneg (fun r => r - mean_R rs)).
Qed.

(** With two returns or more the sample standard deviation is a real
    number. *)
Lemma sample_std_real (rs : list R) :
  (2 <= length rs)%nat ->
  sample_std rs = Fin (sqrt (sum_sq_dev rs / (INR (length rs) - 1))).
Proof.
  intros Hlen. unfold sample_std.
  assert (2 <= INR (length rs)) by (change 2 with (INR 2); now apply le_INR).
  rewrite fdiv_fin by lra. unfold fsqrt.
  rewrite Rltb_false; [reflexivity|].
  pose proof (sum_sq_dev_nonneg rs).
  assert (0 <= sum_sq_dev rs / (INR (length rs) - 1))
    by (apply Rmult_le_pos; [assumption|left; apply Rinv_0_lt_compat; lra]).
  lra.
Qed.

Lemma last_cons_default {A : Type} (l : list A) :
  forall x d : A, last (x :: l) d = last l x.
Proof.
  induction l as [|y l IH]; intros x d; [reflexivity|].
  change (last (x :: y :: l) d) with (last (y :: l) d).
  rewrite IH. symmetry. apply IH.
Qed.

(** C2.  On a series of at least two finite non-zero values,
    [calculate_metrics] returns: as total return, the last value over the
    first, minus one; as volatility, the sample standard deviation ([N - 1]
    in the denominator) of the [N] period returns, times the square root of
    252; as Sharpe ratio, their mean over that standard deviation, times
    the square root of 252, nothing subtracted from the mean.  With three
    values or more the standard deviation is the real number the formula
    denotes. *)
Theorem calculate_metrics_formulas :
  forall (s : Series) (vs : list R),
    Series_values s = map Fin vs -> (2 <= length vs)%nat -> Forall nonzero vs ->
    exists m : Metrics,
      calculate_metrics s = Return m
      /\ total_return m = Fin (last vs 0 / hd 0 vs - 1)
      /\ volatility m
         = (sample_std (period_returns vs) ⊗ Fin (sqrt 252))%float
      /\ sharpe_ratio m
         = (sample_mean (period_returns vs) ⊘ sample_std (period_returns vs)
            ⊗ Fin (sqrt 252))%float
      /\ length (period_returns vs) = (length vs - 1)%nat
      /\ ((3 <= length vs)%nat ->
          volatility m
          = Fin (sqrt (sum_sq_dev (period_returns vs)
                       / (INR (length (period_returns vs)) - 1))
                 * sqrt 252)).
Proof.
  intros s vs Hs Hlen Hnz.
  destruct vs as [|v0 [|v1 vs]]; try (simpl in Hlen; lia).
  rewrite (calculate_metrics_finite s v0 (v1 :: vs) Hs Hnz).
  eexists; split; [reflexivity|]. cbn [total_return volatility sharpe_ratio].
  cbn [period_returns hd]. cbn [returns_from returns_std].
  split; [|split; [reflexivity|split; [reflexivity|split]]].
  - now rewrite (last_cons_default (v1 :: vs) v0 0).
  - cbn [length]. rewrite length_returns_from. lia.
  - intros H3. rewrite sample_std_real; [reflexivity|].
    cbn [length] in *. rewrite length_returns_from. lia.
Qed.

Lemma calculate_metrics_formulas_witness :
  exists m : Metrics,
    calculate_metrics scenario_portfolio = Return m
    /\ total_return m = Fin (last scenario_values 0 / hd 0 scenario_values - 1)
    /\ volatility m
       = (sample_std (period_returns scenario_values) ⊗ Fin (sqrt 252))%float
    /\ sharpe_ratio m
       = (sample_mean (period_returns scenario_values)
          ⊘ sample_std (period_returns scenario_values)
          ⊗ Fin (sqrt 252))%float
    /\ length (period_returns scenario_values) = (length scenario_values - 1)%nat
    /\ ((3 <= length scenario_values)%nat ->
        volatility m
        = Fin (sqrt (sum_sq_dev (period_returns scenario_values)
                     / (INR (length (period_returns scenario_values)) - 1))
               * sqrt 252)).
Proof.
  apply (calculate_metrics_formulas scenario_portfolio scenario_values).
  - reflexivity.
  - simpl; lia.
  - repeat constructor; unfold nonzero; lra.
Defined.

Lemma fdiv_NaN_r (a : float) : (a ⊘ NaN)%float = NaN.
Proof. now destruct a. Qed.

(** ** Series too short for the statistics (C5) *)

(** C5, as the code has it.  [calculate_metrics] fails on the empty series
    only, with the [IndexError] of [iloc].  On a single observation it returns
    a report: the volatility and the Sharpe ratio are [NaN] whatever the
    value, the total return and the maximum drawdown are 0 when the value is
    finite and not zero. *)
Theorem calculate_metrics_short_series :
  forall (d : date) (x : float) (v : R),
    v <> 0 ->
    calculate_metrics [] = Raise IndexError
    /\ (exists m : Metrics,
          calculate_metrics [(d, x)] = Return m
          /\ volatility m = NaN /\ sharpe_ratio m = NaN)
    /\ calculate_metrics [(d, Fin v)]
       = Return (mkMetrics (Fin 0) NaN NaN (Fin 0)).
Proof.
  intros d x v Hv. split; [reflexivity|]. split.
  - eexists. split; [reflexivity|]. split; reflexivity.
  - rewrite (calculate_metrics_finite [(d, Fin v)] v []);
      [|reflexivity|repeat constructor; exact Hv].
    cbn [last returns_from returns_std zip_with running_max_from fold_left].
    rewrite fdiv_NaN_r. cbn [fmul].
    replace (v / v - 1) with 0 by now field. reflexivity.
Qed.

Lemma calculate_metrics_short_series_witness :
  calculate_metrics [] = Raise IndexError
  /\ (exists m : Metrics,
        calculate_metrics [(0%Z, Fin 10000)] = Return m
        /\ volatility m = NaN /\ sharpe_ratio m = NaN)
  /\ calculate_metrics [(0%Z, Fin 10000)]
     = Return (mkMetrics (Fin 0) NaN NaN (Fin 0)).
Proof.
  apply (calculate_metrics_short_series 0%Z (Fin 10000) 10000). lra.
Defined.

(** C5 as stated fails: a series with one observation gets a report, not an
    error. *)
Lemma single_observation_gets_report :
  calculate_metrics [(0%Z, Fin 10000)]
  = Return (mkMetrics (Fin 0) NaN NaN (Fin 0))
  /\ forall e : exn, calculate_metrics [(0%Z, Fin 10000)] <> Raise e.
Proof.
  assert (H : calculate_metrics [(0%Z, Fin 10000)]
              = Return (mkMetrics (Fin 0) NaN NaN (Fin 0))).
  { unfold calculate_metrics. float_eval. unfold Series_min. float_eval.
    f_equal. f_equal; f_equal; lra. }
  split; [exact H|]. intros e. rewrite H. discriminate.
Qed.

(** ** Constant series (C6) *)

Lemma constant_series_values (dates : list date) (V : R) :
  Series_values (constant_series dates V) = map Fin (repeat V (length dates)).
Proof.
  unfold constant_series, Series_values. rewrite map_map. cbn [snd].
  induction dates as [|d dates IH]; [reflexivity|]. simpl. now rewrite IH.
Qed.

Lemma returns_from_constant (V : R) (n : nat) :
  V <> 0 -> returns_from V (repeat V n) = repeat 0 n.
Proof.
  intros HV. induction n as [|n IH]; [reflexivity|]. simpl.
  rewrite IH. f_equal. now field.
Qed.

Lemma drawdowns_constant (V : R) (n : nat) :
  V <> 0 ->
  zip_with (fun v m => v / m - 1) (repeat V n) (running_max_from V (repeat V n))
  = repeat 0 n.
Proof.
  intros HV. induction n as [|n IH]; [reflexivity|]. simpl.
  assert (E : Rmax V V = V) by (unfold Rmax; now destruct (Rle_dec V V)).
  rewrite E, IH. f_equal. now field.
Qed.

Lemma fold_left_Rmin_zeros (n : nat) : fold_left Rmin (repeat 0 n) 0 = 0.
Proof.
  induction n as [|n IH]; [reflexivity|]. simpl.
  replace (Rmin 0 0) with 0; [exact IH|].
  unfold Rmin. now destruct (Rle_dec 0 0).
Qed.

Lemma Rsum_zeros (n : nat) : Rsum (repeat 0 n) = 0.
Proof.
  induction n as [|n IH]; simpl; [reflexivity|]. rewrite IH. lra.
Qed.

Lemma mean_R_zeros (n : nat) : mean_R (repeat 0 n) = 0.
Proof.
  unfold mean_R. rewrite Rsum_zeros. unfold Rdiv. apply Rmult_0_l.
Qed.

Lemma sum_sq_dev_zeros (n : nat) : sum_sq_dev (repeat 0 n) = 0.
Proof.
  unfold sum_sq_dev. rewrite mean_R_zeros.
  induction n as [|n IH]; simpl; [reflexivity|]. rewrite IH. lra.
Qed.

Lemma sample_mean_zeros (n : nat) : sample_mean (repeat 0 (S n)) = Fin 0.
Proof.
  unfold sample_mean. rewrite Rsum_zeros, repeat_length, fdiv_fin.
  - f_equal. unfold Rdiv. apply Rmult_0_l.
  - apply not_0_INR. discriminate.
Qed.

(** No returns or one return: no standard deviation; two equal returns or
    more: a standard deviation of zero. *)
Lemma returns_std_zeros (n : nat) :
  returns_std (repeat 0 n) = if Nat.leb n 1 then NaN else Fin 0.
Proof.
  destruct n as [|[|n]].
  - reflexivity.
  - unfold returns_std, sample_std. cbn [repeat].
    change [0] with (repeat 0 1). rewrite sum_sq_dev_zeros. simpl.
    unfold fdiv. now rewrite !Reqb_true by lra.
  - cbn [Nat.leb]. change (returns_std (repeat 0 (S (S n))))
      with (sample_std (repeat 0 (S (S n)))).
    rewrite sample_std_real by (rewrite repeat_length; lia).
    rewrite sum_sq_dev_zeros. unfold Rdiv. now rewrite Rmult_0_l, sqrt_0.
Qed.

(** C6, as the code has it.  On a constant series of at least two dates, of
    a finite non-zero value, [calculate_metrics] returns a report: total
    return 0, maximum drawdown 0, a Sharpe ratio that is [NaN], and a
    volatility that is 0, except on exactly two dates, where the single
    return has no sample standard deviation and the volatility is [NaN]. *)
Theorem calculate_metrics_constant_series :
  forall (dates : list date) (V : R),
    V <> 0 -> (2 <= length dates)%nat ->
    calculate_metrics (constant_series dates V)
    = Return (mkMetrics (Fin 0)
                (if Nat.eqb (length dates) 2 then NaN else Fin 0)
                NaN
                (Fin 0)).
Proof.
  intros dates V HV Hlen.
  destruct (length dates) as [|n] eqn:En; [lia|].
  rewrite (calculate_metrics_finite _ V (repeat V n)).
  - rewrite returns_from_constant, drawdowns_constant by exact HV.
    rewrite returns_std_zeros.
    replace (V / V - 1) with 0 by now field.
    rewrite fold_left_Rmin_zeros.
    replace (last (repeat V n) V) with V.
    2:{ clear. induction n as [|n IH]; [reflexivity|].
        cbn [repeat]. now rewrite last_cons_default. }
    replace (V / V - 1) with 0 by now field.
    destruct n as [|[|n]]; [lia| |].
    + cbn [Nat.leb Nat.eqb]. now rewrite fdiv_NaN_r.
    + cbn [Nat.leb Nat.eqb]. rewrite sample_mean_zeros.
      unfold fdiv. rewrite !Reqb_true by reflexivity. cbn [fmul].
      now rewrite Rmult_0_l.
  - rewrite constant_series_values, En. reflexivity.
  - change (V :: repeat V n) with (repeat V (S n)).
    apply Forall_forall; intros x Hx. apply repeat_spec in Hx. now subst.
Qed.

Lemma calculate_metrics_constant_series_witness :
  calculate_metrics (constant_series [0%Z; 1%Z; 2%Z; 3%Z] 100)
  = Return (mkMetrics (Fin 0)
              (if Nat.eqb (length [0%Z; 1%Z; 2%Z; 3%Z]) 2 then NaN else Fin 0)
              NaN
              (Fin 0)).
Proof.
  apply calculate_metrics_constant_series; [lra|simpl; lia].
Defined.

(** C6 as stated fails: on the constant series [V, V, V] of the
    specification's second scenario the volatility is the number 0, not
    [NaN]; only the Sharpe ratio is [NaN]. *)
Lemma constant_series_volatility_zero :
  exists m : Metrics,
    calculate_metrics (constant_series [0%Z; 1%Z; 2%Z] 100) = Return m
    /\ volatility m = Fin 0
    /\ isnan (volatility m) = false
    /\ isnan (sharpe_ratio m) = true.
Proof.
  exists (mkMetrics (Fin 0) (Fin 0) NaN (Fin 0)). split.
  - rewrite (calculate_metrics_finite _ 100 (repeat 100 2));
      [|reflexivity|repeat constructor; unfold nonzero; lra].
    rewrite returns_from_constant, drawdowns_constant by lra.
    rewrite returns_std_zeros, sample_mean_zeros. cbn [Nat.leb repeat last].
    replace (100 / 100 - 1) with 0 by lra.
    change [0; 0] with (repeat 0 2). rewrite fold_left_Rmin_zeros.
    unfold fdiv. rewrite !Reqb_true by reflexivity. cbn [fmul].
    now rewrite Rmult_0_l.
  - repeat split.
Qed.

(** ** The maximum drawdown (C8) *)

Lemma fold_left_Rmin_le (xs : list R) :
  forall x, fold_left Rmin xs x <= x
            /\ forall y, In y xs -> fold_left Rmin xs x <= y.
Proof.
  induction xs as [|a xs IH]; intros x; simpl.
  - split; [lra|contradiction].
  - destruct (IH (Rmin x a)) as [H1 H2].
    pose proof (Rmin_l x a). pose proof (Rmin_r x a).
    split; [lra|]. intros y [<-|Hy]; [lra|now apply H2].
Qed.

Lemma fold_left_Rmin_in (xs : list R) :
  forall x, In (fold_left Rmin xs x) (x :: xs).
Proof.
  induction xs as [|a xs IH]; intros x; simpl; [now left|].
  destruct (IH (Rmin x a)) as [H|H]; [|now right; right].
  rewrite <- H. apply Rmin_case; [now left|now right; left].
Qed.

Lemma fold_left_Rmax_ge (xs : list R) :
  forall m, m <= fold_left Rmax xs m
            /\ forall y, In y xs -> y <= fold_left Rmax xs m.
Proof.
  induction xs as [|a xs IH]; intros m; simpl.
  - split; [lra|contradiction].
  - destruct (IH (Rmax m a)) as [H1 H2].
    pose proof (Rmax_l m a). pose proof (Rmax_r m a).
    split; [lra|]. intros y [<-|Hy]; [lra|now apply H2].
Qed.

Lemma fold_left_Rmax_in (xs : list R) :
  forall m, In (fold_left Rmax xs m) (m :: xs).
Proof.
  induction xs as [|a xs IH]; intros m; simpl; [now left|].
  destruct (IH (Rmax m a)) as [H|H]; [|now right; right].
  rewrite <- H. apply Rmax_case; [now left|now right; left].
Qed.

Lemma length_running_max_from (vs : list R) :
  forall m, length (running_max_from m vs) = length vs.
Proof.
  induction vs as [|v vs IH]; intros m; simpl; [reflexivity|now rewrite IH].
Qed.

Lemma length_running_max (vs : list R) : length (running_max vs) = length vs.
Proof.
  destruct vs; simpl; [reflexivity|now rewrite length_running_max_from].
Qed.

Lemma nth_running_max_from (vs : list R) :
  forall (m : R) (t : nat),
    (t < length vs)%nat ->
    nth t (running_max_from m vs) 0 = fold_left Rmax (firstn (S t) vs) m.
Proof.
  induction vs as [|v vs IH]; intros m t Ht; simpl in Ht; [lia|].
  destruct t as [|t]; [reflexivity|].
  cbn [running_max_from nth]. rewrite IH by lia. reflexivity.
Qed.

Lemma Rmax_same (x : R) : Rmax x x = x.
Proof. unfold Rmax. now destruct (Rle_dec x x). Qed.

Lemma nth_running_max (vs : list R) (t : nat) :
  (t < length vs)%nat -> nth t (running_max vs) 0 = prefix_max vs t.
Proof.
  destruct vs as [|v vs]; intros Ht; simpl in Ht; [lia|].
  unfold prefix_max. cbn [hd firstn fold_left running_max]. rewrite Rmax_same.
  destruct t as [|t]; [reflexivity|].
  cbn [nth]. apply nth_running_max_from. lia.
Qed.

Lemma prefix_max_ge (vs : list R) (i t : nat) :
  (i <= t < length vs)%nat -> nth i vs 0 <= prefix_max vs t.
Proof.
  intros H. unfold prefix_max.
  apply (fold_left_Rmax_ge (firstn (S t) vs) (hd 0 vs)).
  replace (nth i vs 0) with (nth i (firstn (S t) vs) 0).
  - apply nth_In. rewrite length_firstn. lia.
  - rewrite nth_firstn. destruct (Nat.ltb_spec i (S t)); [reflexivity|lia].
Qed.

Lemma prefix_max_attained (vs : list R) (t : nat) :
  (t < length vs)%nat ->
  exists i : nat, (i <= t)%nat /\ prefix_max vs t = nth i vs 0.
Proof.
  intros Ht. unfold prefix_max.
  destruct (fold_left_Rmax_in (firstn (S t) vs) (hd 0 vs)) as [H|H].
  - exists O. split; [lia|]. rewrite <- H. destruct vs; [simpl in Ht; lia|reflexivity].
  - apply (In_nth _ _ 0) in H. destruct H as [n [Hn Hnth]].
    rewrite length_firstn in Hn. exists n. split; [lia|].
    rewrite <- Hnth, nth_firstn.
    destruct (Nat.ltb_spec n (S t)); [reflexivity|lia].
Qed.

Lemma nth_drawdowns (vs : list R) (t : nat) :
  (t < length vs)%nat -> nth t (drawdowns vs) 0 = drawdown_at vs t.
Proof.
  intros Ht. unfold drawdowns, drawdown_at.
  rewrite (nth_zip_with _ vs (running_max vs) t 0 0 0)
    by (rewrite ?length_running_max; exact Ht).
  now rewrite nth_running_max.
Qed.

Lemma length_drawdowns (vs : list R) : length (drawdowns vs) = length vs.
Proof.
  unfold drawdowns. apply length_zip_with. now rewrite length_running_max.
Qed.

Lemma prefix_max_pos (vs : list R) (t : nat) :
  Forall (fun v => 0 < v) vs -> (t < length vs)%nat -> 0 < prefix_max vs t.
Proof.
  intros Hpos Ht.
  pose proof (prefix_max_ge vs t t (conj (le_n t) Ht)).
  rewrite Forall_nth in Hpos. specialize (Hpos t 0 Ht). lra.
Qed.

Lemma drawdown_at_nonneg_iff (vs : list R) (t : nat) :
  Forall (fun v => 0 < v) vs -> (t < length vs)%nat ->
  (0 <= drawdown_at vs t <-> prefix_max vs t <= nth t vs 0).
Proof.
  intros Hpos Ht. pose proof (prefix_max_pos vs t Hpos Ht) as Hp.
  unfold drawdown_at. split; intros H.
  - assert (1 <= nth t vs 0 / prefix_max vs t) by lra.
    apply (Rmult_le_compat_r (prefix_max vs t)) in H0; [|lra].
    unfold Rdiv in H0. rewrite Rmult_assoc, Rinv_l in H0 by lra. lra.
  - assert (1 <= nth t vs 0 / prefix_max vs t); [|lra].
    apply (Rmult_le_reg_r (prefix_max vs t)); [lra|].
    unfold Rdiv. rewrite Rmult_assoc, Rinv_l by lra. lra.
Qed.

Lemma positive_nonzero (vs : list R) :
  Forall (fun v => 0 < v) vs -> Forall nonzero vs.
Proof.
  apply Forall_impl. unfold nonzero. intros; lra.
Qed.

(** C8.  On a non-empty series of positive values, the maximum drawdown
    [calculate_metrics] returns is the least of the drawdowns
    [v_t / max(v_1..v_t) - 1] over the dates [t]; it is at most 0, and it is
    0 exactly when the series never goes down. *)
Theorem max_drawdown_is_least_drawdown :
  forall (s : Series) (vs : list R),
    Series_values s = map Fin vs -> vs <> [] -> Forall (fun v => 0 < v) vs ->
    exists (m : Metrics) (mdd : R),
      calculate_metrics s = Return m
      /\ max_drawdown m = Fin mdd
      /\ (forall t : nat, (t < length vs)%nat -> mdd <= drawdown_at vs t)
      /\ (exists t : nat, (t < length vs)%nat /\ mdd = drawdown_at vs t)
      /\ mdd <= 0
      /\ (mdd = 0 <-> nondecreasing vs).
Proof.
  intros s vs Hs Hne Hpos.
  destruct vs as [|v0 vs']; [contradiction|].
  rewrite (calculate_metrics_finite s v0 vs' Hs (positive_nonzero _ Hpos)).
  set (vs := v0 :: vs') in *.
  set (x := v0 / v0 - 1).
  set (xs := zip_with (fun v m => v / m - 1) vs' (running_max_from v0 vs')).
  assert (Hdd : drawdowns vs = x :: xs) by reflexivity.
  set (mdd := fold_left Rmin xs x).
  assert (Hlow : forall t, (t < length vs)%nat -> mdd <= drawdown_at vs t).
  { intros t Ht. rewrite <- nth_drawdowns by exact Ht.
    assert (Hin : In (nth t (drawdowns vs) 0) (x :: xs))
      by (rewrite <- Hdd; apply nth_In; now rewrite length_drawdowns).
    destruct (fold_left_Rmin_le xs x) as [H1 H2].
    destruct Hin as [<-|Hin]; [exact H1|now apply H2]. }
  assert (Hatt : exists t, (t < length vs)%nat /\ mdd = drawdown_at vs t).
  { pose proof (fold_left_Rmin_in xs x) as Hin. rewrite <- Hdd in Hin.
    apply (In_nth _ _ 0) in Hin. destruct Hin as [t [Ht Hnth]].
    rewrite length_drawdowns in Ht. exists t. split; [exact Ht|].
    rewrite <- nth_drawdowns by exact Ht. symmetry. exact Hnth. }
  assert (Hx : x = 0).
  { unfold x. inversion Hpos; subst. field. lra. }
  assert (Hle : mdd <= 0).
  { destruct (fold_left_Rmin_le xs x) as [H1 _]. fold mdd in H1. lra. }
  exists (mkMetrics (Fin (last vs' v0 / v0 - 1))
            (returns_std (returns_from v0 vs') ⊗ Fin (sqrt 252))%float
            (sample_mean (returns_from v0 vs') ⊘ returns_std (returns_from v0 vs')
             ⊗ Fin (sqrt 252))%float
            (Fin mdd)), mdd.
  split; [reflexivity|]. split; [reflexivity|].
  split; [exact Hlow|]. split; [exact Hatt|]. split; [exact Hle|].
  split.
  - intros H0 i j [Hij Hj].
    assert (Hnn : 0 <= drawdown_at vs j) by (rewrite <- H0; now apply Hlow).
    apply drawdown_at_nonneg_iff in Hnn; [|assumption..].
    pose proof (prefix_max_ge vs i j (conj Hij Hj)). lra.
  - intros Hmono. destruct Hatt as [t [Ht Heq]].
    destruct (prefix_max_attained vs t Ht) as [i [Hi Hpm]].
    assert (Hnn : 0 <= drawdown_at vs t).
    { apply drawdown_at_nonneg_iff; [assumption..|].
      rewrite Hpm. apply Hmono. lia. }
    lra.
Qed.

Lemma max_drawdown_is_least_drawdown_witness :
  exists (m : Metrics) (mdd : R),
    calculate_metrics scenario_portfolio = Return m
    /\ max_drawdown m = Fin mdd
    /\ (forall t : nat, (t < length scenario_values)%nat ->
        mdd <= drawdown_at scenario_values t)
    /\ (exists t : nat, (t < length scenario_values)%nat
                        /\ mdd = drawdown_at scenario_values t)
    /\ mdd <= 0
    /\ (mdd = 0 <-> nondecreasing scenario_values).
Proof.
  apply (max_drawdown_is_least_drawdown scenario_portfolio scenario_values).
  - reflexivity.
  - discriminate.
  - repeat constructor; lra.
Defined.

(** The drawdown of the first scenario: 9450 / 11000 - 1. *)
Example scenario_1_max_drawdown :
  exists m : Metrics,
    calculate_metrics scenario_portfolio = Return m
    /\ total_return m = Fin (- (55 / 1000))
    /\ max_drawdown m = Fin (9450 / 11000 - 1).
Proof.
  eexists. split.
  - apply (calculate_metrics_finite scenario_portfolio 10000 [11000; 9450]).
    + reflexivity.
    + repeat constructor; unfold nonzero; lra.
  - cbn [total_return max_drawdown last zip_with running_max_from fold_left].
    split; f_equal; [lra|].
    repeat match goal with
           | |- context [Rmax ?a ?b] =>
               first [ rewrite (Rmax_right a b) by lra
                     | rewrite (Rmax_left a b) by lra ]
           | |- context [Rmin ?a ?b] =>
               first [ rewrite (Rmin_left a b) by lra
                     | rewrite (Rmin_right a b) by lra ]
           end.
    reflexivity.
Qed.

(** ** What the script rejects before simulating (C4) *)

Lemma alloc_sum_ok_iff (allocations : list float) :
  alloc_sum_ok allocations = true <-> sums_to_one allocations.
Proof.
  unfold alloc_sum_ok, sums_to_one.
  destruct (fsum allocations) as [s| | |]; [rewrite fsub_fin|..];
    cbn [fsub fneg fadd fabs flt].
  - unfold Rltb.
    destruct (Rlt_dec (Rabs (s - 1)) (1 / 1000)) as [H|H]; split.
    + intros _. now exists s.
    + reflexivity.
    + discriminate.
    + intros [s' [E Hs']]. injection E as <-. contradiction.
  - split; [discriminate|]. intros [s [E _]]; discriminate.
  - split; [discriminate|]. intros [s [E _]]; discriminate.
  - split; [discriminate|]. intros [s [E _]]; discriminate.
Qed.

Lemma DataFrame_empty_iff (data : DataFrame) :
  DataFrame_empty data = true <-> no_rows_or_no_columns data.
Proof.
  unfold DataFrame_empty, no_rows_or_no_columns.
  destruct (rows data), (columns data); split; intros H;
    try reflexivity; try discriminate; try (now left); try (now right).
  destruct H; discriminate.
Qed.

(** The third scenario: the weights 0.5 and 0.4 are refused for their sum
    (and the provider is not even asked). *)
Example scenario_3_rejected : main no_data scenario_3 = Stopped AllocSumNot100.
Proof.
  assert (Hsum : fsum [(Fin 50 ⊘ Fin 100)%float; (Fin 40 ⊘ Fin 100)%float]
                 = Fin (9 / 10)).
  { unfold fsum. float_eval. f_equal. lra. }
  unfold main, scenario_3. cbn [all_stock_options alloc_input parse_allocations].
  cbn [length Nat.eqb negb]. unfold alloc_sum_ok. rewrite Hsum, fsub_fin.
  cbn [fabs flt]. rewrite Rltb_false; [reflexivity|].
  rewrite Rabs_lt_iff. lra.
Qed.

(** The fourth scenario: a table with a single row goes through the whole
    script, and the report has no volatility and no Sharpe ratio. *)
Example scenario_4_displayed :
  main one_row scenario_4
  = Displayed [(0%Z, Fin 10000)] (mkMetrics (Fin 0) NaN NaN (Fin 0)).
Proof.
  assert (Hsum : fsum [(Fin 100 ⊘ Fin 100)%float] = Fin 1).
  { unfold fsum. float_eval. f_equal. lra. }
  unfold main, scenario_4. cbn [all_stock_options alloc_input parse_allocations].
  cbn [length Nat.eqb negb]. unfold alloc_sum_ok. rewrite Hsum, fsub_fin.
  cbn [fabs flt]. rewrite Rltb_true by (rewrite Rabs_lt_iff; lra).
  cbn [negb fetch_data one_row DataFrame_empty rows columns rename_columns
       initial_investment start_date end_date].
  assert (Hsim : simulate_portfolio
                   (mkDataFrame ["AAPL"%string] [(0%Z, [Fin 100])])
                   [(Fin 100 ⊘ Fin 100)%float] (Fin 10000)
                 = Return [(0%Z, Fin 10000)]).
  { unfold simulate_portfolio. float_eval.
    unfold Series_mul_scalar, DataFrame_sum_axis1, nansum, fsum. float_eval.
    repeat (f_equal; try lra). }
  change (rename_columns ["AAPL"%string] (one_row ["AAPL"%string] 0%Z 365%Z))
    with (mkDataFrame ["AAPL"%string] [(0%Z, [Fin 100])]).
  rewrite Hsim.
  rewrite (calculate_metrics_finite [(0%Z, Fin 10000)] 10000 []);
    [|reflexivity|repeat constructor; unfold nonzero; lra].
  cbn [last returns_from returns_std zip_with running_max_from fold_left].
  rewrite fdiv_NaN_r. cbn [fmul].
  replace (10000 / 10000 - 1) with 0 by lra. reflexivity.
Qed.

(** * Further properties of the code *)

(** ** [fetch_data] *)

(** [fetch_data] hands on the emptiness of what the provider answers, and its
    answer never has rows without columns or columns without rows: it is
    [pd.DataFrame()], or the rows of the download under the ticker labels. *)
Theorem fetch_data_empty_or_populated :
  forall (yf_download : list ticker -> date -> date -> DataFrame)
         (tickers : list ticker) (start_date end_date : date),
    DataFrame_empty (fetch_data yf_download tickers start_date end_date)
    = DataFrame_empty (yf_download tickers start_date end_date)
    /\ (rows (fetch_data yf_download tickers start_date end_date) = []
        <-> columns (fetch_data yf_download tickers start_date end_date) = [])
    /\ rows (fetch_data yf_download tickers start_date end_date)
       = (if DataFrame_empty (yf_download tickers start_date end_date) then []
          else rows (yf_download tickers start_date end_date))
    /\ columns (fetch_data yf_download tickers start_date end_date)
       = (if DataFrame_empty (yf_download tickers start_date end_date) then []
          else match tickers with
               | [t] => [t]
               | _ => columns (yf_download tickers start_date end_date)
               end).
Proof.
  intros yf tickers sd ed. unfold fetch_data.
  destruct (DataFrame_empty (yf tickers sd ed)) eqn:E.
  - repeat split; reflexivity.
  - assert (Hr : rows (yf tickers sd ed) <> [] /\ columns (yf tickers sd ed) <> []).
    { unfold DataFrame_empty in E.
      destruct (rows (yf tickers sd ed)), (columns (yf tickers sd ed));
        try discriminate. split; discriminate. }
    destruct Hr as [Hr Hc].
    destruct tickers as [|t [|t' ts]]; unfold rename_columns;
      cbn [rows columns].
    + repeat split; try assumption; try reflexivity; intros H; contradiction.
    + repeat split; try reflexivity.
      * unfold DataFrame_empty; cbn [rows columns].
        destruct (rows (yf [t] sd ed)); [contradiction|reflexivity].
      * intros H; contradiction.
      * discriminate.
    + repeat split; try assumption; try reflexivity; intros H; contradiction.
Qed.

(** ** Exceptions of the helpers *)

(** [simulate_portfolio] raises [IndexError] exactly on a table without rows
    and [ValueError] exactly on a table with rows whose number of columns is
    not the number of weights; every series it returns runs over the dates
    of the table, whatever the prices. *)
Theorem simulate_portfolio_outcomes :
  forall (data : DataFrame) (allocations : list float) (I : float),
    (simulate_portfolio data allocations I = Raise IndexError
     <-> rows data = [])
    /\ (simulate_portfolio data allocations I = Raise ValueError
        <-> rows data <> [] /\ length allocations <> length (columns data))
    /\ (forall s : Series,
          simulate_portfolio data allocations I = Return s ->
          Series_index s = index data).
Proof.
  intros [labels rs] allocations I. unfold simulate_portfolio, DataFrame_iloc0.
  cbn [rows columns]. destruct rs as [|[d0 first] rs]; cbn [bind].
  - repeat split; try discriminate; try reflexivity.
    intros [H _]; contradiction.
  - unfold DataFrame_mul_list, DataFrame_div_row. cbn [columns rows].
    destruct (Nat.eqb_spec (length allocations) (length labels)) as [E|E];
      cbn [bind].
    + repeat split; try discriminate.
      * intros [_ H]; contradiction.
      * intros s Hs. injection Hs as <-.
        unfold Series_index, Series_mul_scalar, DataFrame_sum_axis1, index.
        cbn [rows map fst]. f_equal. rewrite !map_map. cbn [fst].
        reflexivity.
    + repeat split; try discriminate; assumption.
Qed.

(** [calculate_metrics] raises exactly on the empty series, and then
    [IndexError]: every series with a value, whatever it is, gets a report. *)
Theorem calculate_metrics_raises_iff_empty :
  forall portfolio : Series,
    (calculate_metrics portfolio = Raise IndexError <-> portfolio = [])
    /\ (forall e : exn, calculate_metrics portfolio = Raise e -> e = IndexError)
    /\ ((exists m : Metrics, calculate_metrics portfolio = Return m)
        <-> portfolio <> []).
Proof.
  intros s. unfold calculate_metrics, Series_iloc_last, Series_iloc0.
  destruct s as [|p s].
  - cbn [rev bind]. repeat split; try reflexivity.
    + intros e H. now injection H.
    + intros [m H]; discriminate.
    + intros H; contradiction.
  - destruct (rev (p :: s)) as [|q r] eqn:E.
    + apply (f_equal (@length _)) in E. rewrite length_rev in E. discriminate.
    + cbn [bind]. repeat split; try discriminate.
      intros _. eexists. reflexivity.
Qed.

(** ** Missing prices *)

Lemma simulate_portfolio_rows (data : DataFrame) (allocations : list float)
    (I : float) (d0 : date) (first : list float) (rs : list (date * list float)) :
  rows data = (d0, first) :: rs ->
  length allocations = length (columns data) ->
  simulate_portfolio data allocations I
  = Return (map (fun r => (fst r,
                           (nansum (zip_with fmul (zip_with fdiv (snd r) first)
                                      allocations) ⊗ I)%float))
              (rows data)).
Proof.
  intros Hrows Hlen. unfold simulate_portfolio, DataFrame_iloc0.
  rewrite Hrows. cbn [bind].
  unfold DataFrame_mul_list, DataFrame_div_row. cbn [columns rows].
  rewrite Hlen, Nat.eqb_refl. cbn [bind]. f_equal.
  unfold Series_mul_scalar, DataFrame_sum_axis1. cbn [rows].
  rewrite Hrows, !map_map. reflexivity.
Qed.

(** One row of the weighted, normalised table when prices are missing: a
    column without a price on the date or on the first date counts for
    nothing in the sum. *)
Lemma weighted_row_gaps (first : list float) :
  Forall price_or_gap first ->
  forall row ws : list float,
    length row = length first -> length ws = length first ->
    Forall price_or_gap row -> Forall finite ws ->
    map (fun x => if isnan x then Fin 0 else x)
      (zip_with fmul (zip_with fdiv row first) ws)
    = map Fin
        (map (fun j => if notna (nth j row NaN) && notna (nth j first NaN)
                       then to_R (nth j ws NaN)
                            * (to_R (nth j row NaN) / to_R (nth j first NaN))
                       else 0)
           (seq 0 (length first))).
Proof.
  induction 1 as [|f first Hf Hfirst IH]; intros row ws Hrow Hws Hpos Hfin.
  - destruct row; [reflexivity|discriminate].
  - destruct row as [|p row]; [discriminate|].
    destruct ws as [|w ws]; [discriminate|].
    inversion Hpos as [|? ? Hp Hpos']; subst.
    inversion Hfin as [|? ? Hw Hfin']; subst.
    cbn [zip_with length seq map]. f_equal.
    + destruct w as [w'| | |]; simpl in Hw; try contradiction.
      destruct Hf as [Hf| ->], Hp as [Hp| ->];
        try (destruct f as [f'| | |]; simpl in Hf; try contradiction);
        try (destruct p as [p'| | |]; simpl in Hp; try contradiction);
        cbn [nth notna isnan negb andb to_R]; try reflexivity.
      rewrite fdiv_fin by lra. simpl. f_equal. lra.
    + rewrite IH by (simpl in *; assumption || lia).
      rewrite <- seq_shift, !map_map. reflexivity.
Qed.

(** Where the provider has no price, the sum over the tickers skips the
    ticker: on a table of positive prices with gaps, the value on a date is
    the weighted growth of the tickers quoted on that date and on the first
    one, times the investment; the ticker without a price counts as worth
    nothing on that date. *)
Theorem simulate_portfolio_skips_missing_prices :
  forall (data : DataFrame) (allocations : list float) (I : R),
    table_with_gaps data -> rows data <> [] ->
    length allocations = length (columns data) -> Forall finite allocations ->
    exists s : Series,
      simulate_portfolio data allocations (Fin I) = Return s
      /\ Series_index s = index data
      /\ forall t : nat, (t < length (index data))%nat ->
           nth t (Series_values s) NaN
           = Fin (growth_quoted data allocations t * I).
Proof.
  intros data allocations I Htable Hrows Hlen Hfin.
  destruct (rows data) as [|[d0 first] rs] eqn:Er; [contradiction|].
  rewrite (simulate_portfolio_rows data allocations (Fin I) d0 first rs Er Hlen).
  eexists; split; [reflexivity|]. split.
  - unfold Series_index, index. rewrite Er, map_map. reflexivity.
  - intros t Ht. unfold index in Ht. rewrite length_map in Ht.
    unfold Series_values. rewrite map_map. cbn [snd].
    rewrite (map_seq_nth _ (rows data) (0%Z, [])), nth_map_seq by exact Ht.
    assert (Hfirst : length first = length (columns data)
                     /\ Forall price_or_gap first).
    { unfold table_with_gaps in Htable. rewrite Er in Htable.
      now inversion Htable. }
    assert (Hrow : length (snd (nth t (rows data) (0%Z, [])))
                   = length (columns data)
                   /\ Forall price_or_gap (snd (nth t (rows data) (0%Z, [])))).
    { unfold table_with_gaps in Htable. rewrite Forall_forall in Htable.
      apply Htable, nth_In. exact Ht. }
    destruct Hfirst as [Hfl Hfp], Hrow as [Hrl Hrp].
    unfold nansum.
    rewrite weighted_row_gaps; try assumption; try congruence.
    rewrite fsum_fin. cbn [fmul]. f_equal. f_equal.
    assert (Hf0 : snd (nth 0 (rows data) (0%Z, [])) = first)
      by now rewrite Er.
    unfold growth_quoted, quoted, entry, price, weight.
    rewrite Hf0, Hfl. reflexivity.
Qed.

Lemma simulate_portfolio_skips_missing_prices_witness :
  exists s : Series,
    simulate_portfolio prices_with_gap half_half (Fin 10000) = Return s
    /\ Series_index s = index prices_with_gap
    /\ forall t : nat, (t < length (index prices_with_gap))%nat ->
         nth t (Series_values s) NaN
         = Fin (growth_quoted prices_with_gap half_half t * 10000).
Proof.
  apply simulate_portfolio_skips_missing_prices.
  - unfold table_with_gaps, prices_with_gap; cbn [rows columns].
    repeat first [ apply Forall_nil | apply Forall_cons | split ];
      try reflexivity; try (left; simpl; lra); right; reflexivity.
  - discriminate.
  - reflexivity.
  - repeat constructor.
Defined.

(** With AAPL missing on the second date, half of the portfolio is gone for
    that date: 5500 instead of 11000. *)
Example gap_halves_the_value :
  simulate_portfolio prices_with_gap half_half (Fin 10000)
  = Return [(0%Z, Fin 10000); (1%Z, Fin 5500); (2%Z, Fin 9450)].
Proof.
  unfold simulate_portfolio, prices_with_gap, half_half. float_eval.
  unfold Series_mul_scalar, DataFrame_sum_axis1, nansum, fsum. float_eval.
  repeat (f_equal; try lra).
Qed.

(** ** Positive prices *)

Lemma price_positive (data : DataFrame) (t j : nat) :
  price_table data -> (t < length (rows data))%nat ->
  (j < length (columns data))%nat -> 0 < price data t j.
Proof.
  intros Htable Ht Hj. unfold price_table in Htable.
  rewrite Forall_forall in Htable.
  destruct (Htable (nth t (rows data) (0%Z, [])) (nth_In _ _ Ht)) as [Hl Hp].
  rewrite Forall_nth in Hp. specialize (Hp j NaN). unfold price.
  destruct (nth j (snd (nth t (rows data) (0%Z, []))) NaN);
    simpl in Hp |- *; try (exfalso; apply Hp; lia). apply Hp. lia.
Qed.

(** ** Ranges of the metrics *)

Lemma sample_std_single (r : R) : sample_std [r] = NaN.
Proof.
  unfold sample_std, sum_sq_dev, mean_R. cbn [length map Rsum fold_right INR].
  unfold fdiv. rewrite !Reqb_true; [reflexivity| |lra]. field.
Qed.

Lemma last_In {A : Type} (l : list A) (x : A) : In (last l x) (x :: l).
Proof.
  revert x. induction l as [|y l IH]; intros x; [now left|].
  right. rewrite (last_cons_default l y x). apply IH.
Qed.

Lemma drawdowns_above_minus_one (vs : list R) :
  Forall (fun v => 0 < v) vs -> Forall (fun d => -1 < d) (drawdowns vs).
Proof.
  intros Hpos. apply Forall_forall. intros d Hin.
  apply (In_nth _ _ 0) in Hin. destruct Hin as [t [Ht <-]].
  rewrite length_drawdowns in Ht. rewrite nth_drawdowns by exact Ht.
  unfold drawdown_at.
  pose proof (prefix_max_pos vs t Hpos Ht) as Hp.
  assert (Hv : 0 < nth t vs 0) by (rewrite Forall_nth in Hpos; now apply Hpos).
  pose proof (Rdiv_lt_0_compat _ _ Hv Hp). lra.
Qed.

(** On a non-empty series of positive values the report holds numbers in
    their natural ranges: a total return of -100 percent at least, a maximum
    drawdown between -100 percent and 0, and a volatility that is never
    negative: it is [NaN] or at least 0, and [NaN] when the series has
    fewer than three values. *)
Theorem metrics_ranges :
  forall (s : Series) (vs : list R),
    Series_values s = map Fin vs -> vs <> [] -> Forall (fun v => 0 < v) vs ->
    exists m : Metrics,
      calculate_metrics s = Return m
      /\ fle (Fin (-1)) (total_return m) = true
      /\ fle (Fin (-1)) (max_drawdown m) = true
      /\ fle (max_drawdown m) (Fin 0) = true
      /\ (isnan (volatility m) = true \/ fle (Fin 0) (volatility m) = true)
      /\ ((length vs <= 2)%nat -> isnan (volatility m) = true).
Proof.
  intros s vs Hs Hne Hpos.
  destruct vs as [|v0 vs']; [contradiction|].
  rewrite (calculate_metrics_finite s v0 vs' Hs (positive_nonzero _ Hpos)).
  eexists. split; [reflexivity|]. cbn [total_return max_drawdown volatility].
  assert (Hv0 : 0 < v0) by now inversion Hpos.
  split.
  { assert (Hl : 0 < last vs' v0).
    { rewrite Forall_forall in Hpos. apply Hpos, last_In. }
    pose proof (Rdiv_lt_0_compat _ _ Hl Hv0). cbn [fle]. apply Rleb_true. lra. }
  split.
  { pose proof (drawdowns_above_minus_one _ Hpos) as Hd.
    rewrite Forall_forall in Hd. cbn [fle]. apply Rleb_true, Rlt_le, Hd.
    apply (fold_left_Rmin_in
             (zip_with (fun v m => v / m - 1) vs' (running_max_from v0 vs'))
             (v0 / v0 - 1)). }
  split.
  { cbn [fle]. apply Rleb_true.
    apply Rle_trans with (v0 / v0 - 1).
    - apply (proj1 (fold_left_Rmin_le _ _)).
    - right. field. lra. }
  destruct vs' as [|v1 [|v2 vs']].
  - split; [left|intros _]; reflexivity.
  - cbn [length returns_from returns_std]. rewrite sample_std_single.
    split; [left|intros _]; reflexivity.
  - cbn [length]. cbn [returns_from returns_std].
    rewrite sample_std_real by (cbn [length]; lia). cbn [fmul].
    split; [|intros H; lia]. right. cbn [fle]. apply Rleb_true.
    apply Rmult_le_pos; apply sqrt_pos.
Qed.

Lemma metrics_ranges_witness :
  exists m : Metrics,
    calculate_metrics scenario_portfolio = Return m
    /\ fle (Fin (-1)) (total_return m) = true
    /\ fle (Fin (-1)) (max_drawdown m) = true
    /\ fle (max_drawdown m) (Fin 0) = true
    /\ (isnan (volatility m) = true \/ fle (Fin 0) (volatility m) = true)
    /\ ((length scenario_values <= 2)%nat -> isnan (volatility m) = true).
Proof.
  apply (metrics_ranges scenario_portfolio scenario_values).
  - reflexivity.
  - discriminate.
  - repeat constructor; lra.
Defined.

(** ** How a run of the script ends *)

(** Either a test stops the run, or the run is ready and ends as the
    simulation and the metrics end. *)
Lemma main_cases (yf : list ticker -> date -> date -> DataFrame) (ui : Inputs) :
  (~ ready yf ui /\ exists msg : st_error, main yf ui = Stopped msg)
  \/ (ready yf ui
      /\ exists allocations : list float,
           parse_allocations (alloc_input ui) = Some allocations
           /\ length allocations = length (all_stock_options ui)
           /\ main yf ui
              = match simulate_portfolio (fetched yf ui) allocations
                        (initial_investment ui) with
                | Raise e => Uncaught e
                | Return portfolio =>
                    match calculate_metrics portfolio with
                    | Raise e => Uncaught e
                    | Return m => Displayed portfolio m
                    end
                end).
Proof.
  unfold main, ready, fetched, accepted.
  destruct (all_stock_options ui) as [|t ts] eqn:Et.
  { left. split; [intros [H _]; contradiction|eexists; reflexivity]. }
  rewrite <- Et.
  destruct (parse_allocations (alloc_input ui)) as [allocations|] eqn:Ep.
  2:{ left. split; [|eexists; reflexivity].
      intros [_ [a [H _]]]. discriminate. }
  destruct (Nat.eqb_spec (length allocations) (length (all_stock_options ui)))
    as [Hlen|Hlen]; cbn [negb].
  2:{ left. split; [|eexists; reflexivity].
      intros [_ [a [H [[Hl _] _]]]]. injection H as <-. contradiction. }
  destruct (alloc_sum_ok allocations) eqn:Esum; cbn [negb].
  2:{ left. split; [|eexists; reflexivity].
      intros [_ [a [H [[_ Hs] _]]]]. injection H as <-.
      apply alloc_sum_ok_iff in Hs. congruence. }
  destruct (DataFrame_empty _) eqn:Eempty.
  { left. split; [|eexists; reflexivity].
    intros [_ [a [_ [_ H]]]]. discriminate. }
  right. split.
  - split; [rewrite Et; discriminate|]. exists allocations.
    repeat split; try assumption. now apply alloc_sum_ok_iff.
  - exists allocations. repeat split. exact Hlen.
Qed.

Lemma not_empty_rows (data : DataFrame) :
  DataFrame_empty data = false -> rows data <> [] /\ columns data <> [].
Proof.
  unfold DataFrame_empty. destruct (rows data), (columns data);
    try discriminate. intros _. split; discriminate.
Qed.

Lemma simulate_portfolio_mismatch (data : DataFrame) (allocations : list float)
    (I : float) :
  rows data <> [] -> length allocations <> length (columns data) ->
  simulate_portfolio data allocations I = Raise ValueError.
Proof.
  intros Hrows Hlen. unfold simulate_portfolio, DataFrame_iloc0.
  destruct (rows data) as [|[d0 first] rs]; [contradiction|]. cbn [bind].
  unfold DataFrame_mul_list, DataFrame_div_row. cbn [columns].
  destruct (Nat.eqb_spec (length allocations) (length (columns data)));
    [contradiction|reflexivity].
Qed.

Lemma ready_not_empty (yf : list ticker -> date -> date -> DataFrame)
    (ui : Inputs) :
  ready yf ui -> rows (fetched yf ui) <> [] /\ columns (fetched yf ui) <> [].
Proof.
  intros [_ [a [_ [_ H]]]]. now apply not_empty_rows.
Qed.

(** The metrics of a series [simulate_portfolio] returned on a table with
    rows: there is one. *)
Lemma calculate_metrics_of_rows (data : DataFrame) (allocations : list float)
    (I : float) (p : Series) :
  rows data <> [] -> simulate_portfolio data allocations I = Return p ->
  exists m : Metrics, calculate_metrics p = Return m.
Proof.
  intros Hrows Hp.
  destruct (rows data) as [|[d0 first] rs] eqn:Er; [contradiction|].
  destruct (Nat.eq_dec (length allocations) (length (columns data))) as [E|E].
  - rewrite (simulate_portfolio_rows data allocations I d0 first rs Er E) in Hp.
    injection Hp as <-. rewrite Er. cbn [map].
    unfold calculate_metrics, Series_iloc_last, Series_iloc0.
    match goal with
    | |- context [rev (?x :: ?l)] => destruct (rev (x :: l)) as [|q r] eqn:Erev
    end.
    + apply (f_equal (@length _)) in Erev. rewrite length_rev in Erev.
      discriminate.
    + cbn [bind]. eexists. reflexivity.
  - rewrite simulate_portfolio_mismatch in Hp; [discriminate| |exact E].
    rewrite Er. discriminate.
Qed.

(** A run never dies of an [IndexError]: the only exception that escapes is
    the [ValueError] of a table whose number of columns is not the number
    of tickers, in a run that passed every test; with a single ticker,
    whose column [fetch_data] relabels, no exception escapes at all. *)
Theorem main_uncaught_iff :
  forall (yf_download : list ticker -> date -> date -> DataFrame)
         (ui : Inputs) (e : exn),
    (main yf_download ui = Uncaught e
     <-> e = ValueError
         /\ ready yf_download ui
         /\ length (columns (fetched yf_download ui))
            <> length (all_stock_options ui))
    /\ (length (all_stock_options ui) = 1%nat ->
        main yf_download ui <> Uncaught e).
Proof.
  intros yf ui e.
  assert (Hiff : main yf ui = Uncaught e
                 <-> e = ValueError /\ ready yf ui
                     /\ length (columns (fetched yf ui))
                        <> length (all_stock_options ui)).
  { destruct (main_cases yf ui) as [[Hnr [msg Hm]]|[Hr [a [Hp [Hlen Hm]]]]].
    - rewrite Hm. split; [discriminate|]. intros [_ [H _]]. contradiction.
    - rewrite Hm. destruct (ready_not_empty yf ui Hr) as [Hrows _].
      destruct (Nat.eq_dec (length a) (length (columns (fetched yf ui))))
        as [E|E].
      + destruct (rows (fetched yf ui)) as [|[d0 first] rs] eqn:Er;
          [contradiction|].
        pose proof (simulate_portfolio_rows (fetched yf ui) a
                      (initial_investment ui) d0 first rs Er E) as Hs.
        destruct (calculate_metrics_of_rows (fetched yf ui) a
                    (initial_investment ui) _ ltac:(rewrite Er; discriminate) Hs)
          as [m Hmet].
        rewrite Hs, Hmet. split; [discriminate|].
        intros [_ [_ H]]. congruence.
      + rewrite simulate_portfolio_mismatch by assumption. split.
        * intros H. injection H as <-.
          split; [reflexivity|]. split; [exact Hr|congruence].
        * intros [-> _]. reflexivity. }
  split; [exact Hiff|].
  intros Hone Hun. apply Hiff in Hun. destruct Hun as [_ [Hr Hcols]].
  apply Hcols. destruct Hr as [_ [a [_ [_ Hne]]]].
  unfold fetched in *. unfold fetch_data in *.
  destruct (DataFrame_empty (yf (all_stock_options ui) (start_date ui) (end_date ui)));
    [discriminate|].
  destruct (all_stock_options ui) as [|t [|t' ts]]; try discriminate.
  reflexivity.
Qed.

(** A run shows the chart and the metrics exactly when it passes every test
    and the table has one column per ticker; what it shows is the simulated
    series, over the dates of the table, and its metrics. *)
Theorem main_displayed_iff :
  forall (yf_download : list ticker -> date -> date -> DataFrame) (ui : Inputs),
    ((exists (portfolio : Series) (m : Metrics),
        main yf_download ui = Displayed portfolio m)
     <-> ready yf_download ui
         /\ length (columns (fetched yf_download ui))
            = length (all_stock_options ui))
    /\ (forall (portfolio : Series) (m : Metrics),
          main yf_download ui = Displayed portfolio m ->
          Series_index portfolio = index (fetched yf_download ui)
          /\ portfolio <> []
          /\ calculate_metrics portfolio = Return m).
Proof.
  intros yf ui.
  destruct (main_cases yf ui) as [[Hnr [msg Hm]]|[Hr [a [Hp [Hlen Hm]]]]].
  - rewrite Hm. split.
    + split; [intros [p [m H]]; discriminate|]. intros [H _]. contradiction.
    + intros p m H. discriminate.
  - rewrite Hm. destruct (ready_not_empty yf ui Hr) as [Hrows _].
    destruct (Nat.eq_dec (length a) (length (columns (fetched yf ui))))
      as [E|E].
    + destruct (rows (fetched yf ui)) as [|[d0 first] rs] eqn:Er;
        [contradiction|].
      pose proof (simulate_portfolio_rows (fetched yf ui) a
                    (initial_investment ui) d0 first rs Er E) as Hs.
      destruct (calculate_metrics_of_rows (fetched yf ui) a
                  (initial_investment ui) _ ltac:(rewrite Er; discriminate) Hs)
        as [m Hmet].
      rewrite Hs, Hmet. split.
      * split; [intros _; split; [exact Hr|congruence]|].
        intros _. do 2 eexists. reflexivity.
      * intros p m' H. injection H as <- <-. split; [|split].
        -- unfold Series_index, index. rewrite Er, map_map. reflexivity.
        -- rewrite Er. discriminate.
        -- exact Hmet.
    + rewrite simulate_portfolio_mismatch by assumption. split.
      * split; [intros [p [m H]]; discriminate|].
        intros [_ H]. congruence.
      * intros p m H. discriminate.
Qed.

(** ** The allocation the script proposes *)

Lemma round_half_even_close (y : R) :
  Rabs (IZR (round_half_even y) - y) <= 1 / 2.
Proof.
  unfold round_half_even. destruct (base_Int_part y) as [H1 H2].
  apply Rabs_le_iff. unfold Rltb.
  destruct (Rlt_dec (y - IZR (Int_part y)) (1 / 2)); [lra|].
  destruct (Rlt_dec (1 / 2) (y - IZR (Int_part y))).
  - rewrite plus_IZR. lra.
  - destruct (Z.even (Int_part y)); [lra|]. rewrite plus_IZR. lra.
Qed.

Lemma map_const {A B : Type} (b : B) (l : list A) :
  map (fun _ => b) l = repeat b (length l).
Proof.
  induction l as [|x l IH]; [reflexivity|]. simpl. now rewrite IH.
Qed.

Lemma parse_allocations_repeat (x : float) (n : nat) :
  parse_allocations (map Some (repeat x n))
  = Some (repeat (x ⊘ Fin 100)%float n).
Proof.
  induction n as [|n IH]; [reflexivity|].
  cbn [repeat map parse_allocations]. now rewrite IH.
Qed.

Lemma Rsum_repeat (w : R) (n : nat) : Rsum (repeat w n) = INR n * w.
Proof.
  induction n as [|n IH]; [simpl; lra|].
  cbn [repeat Rsum fold_right]. fold (Rsum (repeat w n)).
  rewrite IH, S_INR. lra.
Qed.

Lemma map_Fin_repeat (w : R) (n : nat) : map Fin (repeat w n) = repeat (Fin w) n.
Proof.
  induction n as [|n IH]; [reflexivity|]. simpl. now rewrite IH.
Qed.

(** What line 77 reads back from the proposed text: for [n] tickers, [n]
    times the weight [z / 10000], where [z] is [10000 / n] rounded to an
    integer. *)
Lemma default_allocations (ticker_list : list ticker) :
  ticker_list <> [] ->
  parse_allocations (default_alloc_input ticker_list)
  = Some (map Fin
            (repeat
               (IZR (round_half_even (100 / INR (length ticker_list) * 100))
                / 100 / 100)
               (length ticker_list))).
Proof.
  intros Hne. unfold default_alloc_input, def_alloc, of_nat.
  rewrite fdiv_fin.
  2:{ apply not_0_INR. intros H. apply length_zero_iff_nil in H. contradiction. }
  cbn [py_round2]. rewrite map_const, parse_allocations_repeat, fdiv_fin by lra.
  now rewrite map_Fin_repeat.
Qed.

Lemma default_sum_close (n : nat) :
  (1 <= n <= 19)%nat ->
  Rabs (INR n * (IZR (round_half_even (100 / INR n * 100)) / 100 / 100) - 1)
  < 1 / 1000.
Proof.
  intros Hn. set (y := 100 / INR n * 100).
  pose proof (round_half_even_close y) as Hz. apply Rabs_le_iff in Hz.
  assert (H1 : 1 <= INR n) by (change 1 with (INR 1); apply le_INR; lia).
  assert (H19 : INR n <= 19).
  { replace 19 with (INR 19) by (simpl; lra). apply le_INR. lia. }
  assert (Hy : INR n * y = 10000) by (unfold y; field; lra).
  apply Rabs_lt_iff.
  set (z := IZR (round_half_even y)) in *.
  replace (INR n * (z / 100 / 100) - 1)
    with (INR n * (z - y) / 10000) by nra.
  split.
  - assert (INR n * (z - y) >= - (19 / 2)) by nra. lra.
  - assert (INR n * (z - y) <= 19 / 2) by nra. lra.
Qed.

(** The text the allocation box proposes is always taken: for up to 19
    tickers (the sidebar offers six) the shares, each rounded to a hundredth
    of a percent, are as many as the tickers and sum to 1 within 1e-3, so a
    run that keeps the proposed text can only be stopped by the provider
    having no data. *)
Theorem default_allocations_accepted :
  forall (yf_download : list ticker -> date -> date -> DataFrame) (ui : Inputs),
    (1 <= length (all_stock_options ui) <= 19)%nat ->
    alloc_input ui = default_alloc_input (all_stock_options ui) ->
    (exists allocations : list float,
       parse_allocations (alloc_input ui) = Some allocations
       /\ accepted (all_stock_options ui) allocations)
    /\ (forall msg : st_error,
          main yf_download ui = Stopped msg -> msg = FetchFailed).
Proof.
  intros yf ui Hn Hin.
  assert (Hne : all_stock_options ui <> []).
  { intros H. rewrite H in Hn. simpl in Hn. lia. }
  pose proof (default_allocations _ Hne) as Hparse. rewrite <- Hin in Hparse.
  set (w := IZR (round_half_even (100 / INR (length (all_stock_options ui)) * 100))
            / 100 / 100) in *.
  assert (Hacc : accepted (all_stock_options ui)
                   (map Fin (repeat w (length (all_stock_options ui))))).
  { split; [now rewrite length_map, repeat_length|].
    exists (INR (length (all_stock_options ui)) * w). split.
    - now rewrite fsum_fin, Rsum_repeat.
    - now apply default_sum_close. }
  split; [eexists; split; [exact Hparse|exact Hacc]|].
  intros msg. unfold main.
  destruct (all_stock_options ui) as [|t ts] eqn:Et; [contradiction|].
  rewrite Hparse. destruct Hacc as [Hlen Hsum].
  rewrite Hlen, Nat.eqb_refl. cbn [negb].
  apply alloc_sum_ok_iff in Hsum. rewrite Hsum. cbn [negb].
  destruct (DataFrame_empty _).
  - intros H. now injection H as <-.
  - destruct (simulate_portfolio _ _ _) as [p|e]; [|discriminate].
    destruct (calculate_metrics p); discriminate.
Qed.

Lemma default_allocations_accepted_witness :
  (exists allocations : list float,
     parse_allocations (alloc_input default_three) = Some allocations
     /\ accepted (all_stock_options default_three) allocations)
  /\ (forall msg : st_error,
        main no_data default_three = Stopped msg -> msg = FetchFailed).
Proof.
  apply default_allocations_accepted.
  - simpl. lia.
  - reflexivity.
Defined.

(** For three tickers the proposed text reads back as 33.33 percent each. *)
Example default_for_three_tickers :
  parse_allocations (alloc_input default_three) = Some default_thirds.
Proof.
  unfold default_three. cbn [alloc_input].
  rewrite default_allocations by discriminate.
  cbn [length]. f_equal.
  assert (Hi : Int_part (100 / INR 3 * 100) = 3333%Z).
  { symmetry. apply Int_part_spec. simpl. lra. }
  assert (Hr : round_half_even (100 / INR 3 * 100) = 3333%Z).
  { unfold round_half_even. rewrite Hi.
    rewrite Rltb_true; [reflexivity|]. simpl. lra. }
  rewrite Hr. unfold default_thirds. cbn [repeat map].
  repeat (f_equal; try lra).
Qed.

(** ** The benchmark *)

(** The benchmark box has no test of its own on the download: when the
    provider has nothing for SPY the comparison dies of the [IndexError] of
    [iloc], which nothing catches; otherwise it gets a series over the
    dates of the download, and never a [ValueError], the single weight
    matching the single relabelled column. *)
Theorem benchmark_portfolio_outcomes :
  forall (yf_download : list ticker -> date -> date -> DataFrame)
         (start_date end_date : date) (I : float),
    (benchmark_portfolio yf_download start_date end_date I = Raise IndexError
     <-> DataFrame_empty (yf_download ["SPY"%string] start_date end_date) = true)
    /\ benchmark_portfolio yf_download start_date end_date I <> Raise ValueError
    /\ (forall s : Series,
          benchmark_portfolio yf_download start_date end_date I = Return s ->
          Series_index s
          = index (yf_download ["SPY"%string] start_date end_date)).
Proof.
  intros yf sd ed I. unfold benchmark_portfolio, fetch_data.
  destruct (DataFrame_empty (yf ["SPY"%string] sd ed)) eqn:E.
  - cbn. repeat split; try discriminate; reflexivity.
  - destruct (not_empty_rows _ E) as [Hrows _].
    destruct (rows (yf ["SPY"%string] sd ed)) as [|[d0 first] rs] eqn:Er;
      [contradiction|].
    rewrite (simulate_portfolio_rows _ [Fin 1] I d0 first rs);
      [|unfold rename_columns; cbn [rows]; exact Er|reflexivity].
    repeat split; try discriminate.
    intros s H. injection H as <-.
    unfold Series_index, index, rename_columns. cbn [rows].
    rewrite Er, map_map. reflexivity.
Qed.

(** On a download of positive SPY prices the benchmark is the investment
    held in SPY: worth [I * p_t / p_0] on the [t]-th date, and exactly [I]
    on the first. *)
Theorem benchmark_portfolio_buy_and_hold :
  forall (yf_download : list ticker -> date -> date -> DataFrame)
         (start_date end_date : date) (I : R),
    price_table (yf_download ["SPY"%string] start_date end_date) ->
    length (columns (yf_download ["SPY"%string] start_date end_date)) = 1%nat ->
    rows (yf_download ["SPY"%string] start_date end_date) <> [] ->
    exists s : Series,
      benchmark_portfolio yf_download start_date end_date (Fin I) = Return s
      /\ Series_iloc0 s = Return (Fin I)
      /\ forall t : nat,
           (t < length (rows (yf_download ["SPY"%string] start_date end_date)))%nat ->
           nth t (Series_values s) NaN
           = Fin (I * price (yf_download ["SPY"%string] start_date end_date) t 0
                  / price (yf_download ["SPY"%string] start_date end_date) 0 0).
Proof.
  intros yf sd ed I Htable Hcols Hrows.
  unfold benchmark_portfolio, fetch_data.
  remember (yf ["SPY"%string] sd ed) as data eqn:Edata. clear Edata.
  assert (E : DataFrame_empty data = false).
  { unfold DataFrame_empty. destruct (rows data); [contradiction|].
    destruct (columns data); [discriminate|reflexivity]. }
  rewrite E. lazy beta iota zeta.
  assert (Htable' : price_table (rename_columns ["SPY"%string] data)).
  { unfold price_table, rename_columns in *. cbn [rows columns length].
    now rewrite <- Hcols. }
  assert (Hone : Forall finite [Fin 1]) by (repeat constructor).
  pose proof (simulate_portfolio_valid (rename_columns ["SPY"%string] data)
                [Fin 1] (Fin I) Htable' Hrows eq_refl Hone) as Hsim.
  unfold ticker in *. rewrite Hsim. clear Hsim.
  unfold rename_columns at 3. cbn [rows].
  assert (Hg : forall t, (t < length (rows data))%nat ->
           growth (rename_columns ["SPY"%string] data) [Fin 1] t * I
           = I * price data t 0 / price data 0 0).
  { intros t Ht. unfold growth, weight, price, rename_columns.
    cbn [columns rows length seq map Rsum fold_right nth to_R]. field.
    assert (0 < price data 0 0); [|unfold price in *; lra].
    apply price_positive; try assumption; unfold ticker in *; lia. }
  eexists. split; [reflexivity|]. split.
  - destruct (rows data) as [|r rs] eqn:Er; [contradiction|].
    cbn [length seq map Series_iloc0 snd fmul]. f_equal. f_equal.
    rewrite Hg by (cbn [length]; lia).
    assert (0 < price data 0 0)
      by (apply price_positive; try assumption; unfold ticker in *;
          rewrite ?Er; cbn [length]; lia).
    field. lra.
  - intros t Ht. unfold Series_values. rewrite map_map. cbn [snd].
    rewrite nth_map_seq by exact Ht. cbn [fmul]. f_equal. now apply Hg.
Qed.

Lemma benchmark_portfolio_buy_and_hold_witness :
  exists s : Series,
    benchmark_portfolio spy_prices 0%Z 365%Z (Fin 10000) = Return s
    /\ Series_iloc0 s = Return (Fin 10000)
    /\ forall t : nat,
         (t < length (rows (spy_prices ["SPY"%string] 0%Z 365%Z)))%nat ->
         nth t (Series_values s) NaN
         = Fin (10000 * price (spy_prices ["SPY"%string] 0%Z 365%Z) t 0
                / price (spy_prices ["SPY"%string] 0%Z 365%Z) 0 0).
Proof.
  apply benchmark_portfolio_buy_and_hold.
  - repeat constructor; simpl; lra.
  - reflexivity.
  - discriminate.
Defined.

(** Two tickers asked, one column answered: the run passes every test and
    dies of a [ValueError] in [simulate_portfolio]. *)
Example uncaught_on_missing_column :
  main one_known fifty_fifty = Uncaught ValueError.
Proof.
  assert (Hsum : fsum [(Fin 50 ⊘ Fin 100)%float; (Fin 50 ⊘ Fin 100)%float]
                 = Fin 1).
  { unfold fsum. float_eval. f_equal. lra. }
  unfold main, fifty_fifty. cbn [all_stock_options alloc_input parse_allocations].
  cbn [length Nat.eqb negb]. unfold alloc_sum_ok. rewrite Hsum, fsub_fin.
  cbn [fabs flt]. rewrite Rltb_true by (rewrite Rabs_lt_iff; lra).
  reflexivity.
Qed.

(** * What is rejected, and by which lines (C4) *)

(** C4, as the code has it.  [simulate_portfolio] validates nothing but
    what pandas validates: given a table with a row and one weight per
    column it returns a series, whatever the weights sum to and however many
    columns there are; it raises [ValueError] exactly on a number of weights
    that differs from the number of columns, and [IndexError] exactly on a
    table without rows.  The rejections are the script's, ahead of the
    call: a run with a ticker and numeric allocation fields stops with an
    allocation message whenever the number of weights differs from the
    number of tickers or the test of line 86 fails, and, once the
    allocations are accepted, stops with the data message whenever the
    fetched table has no row or no column; no series is computed then. *)
Theorem validation_is_left_to_the_script :
  (forall (data : DataFrame) (allocations : list float) (I : float),
      (rows data <> [] -> length allocations = length (columns data) ->
       exists s : Series,
         simulate_portfolio data allocations I = Return s
         /\ Series_index s = index data)
      /\ (simulate_portfolio data allocations I = Raise ValueError
          <-> rows data <> [] /\ length allocations <> length (columns data))
      /\ (simulate_portfolio data allocations I = Raise IndexError
          <-> rows data = []))
  /\ (forall (yf_download : list ticker -> date -> date -> DataFrame)
             (ui : Inputs) (allocations : list float),
         all_stock_options ui <> [] ->
         parse_allocations (alloc_input ui) = Some allocations ->
         ((length allocations <> length (all_stock_options ui)
           \/ alloc_sum_ok allocations = false) ->
          InvalidAllocation (main yf_download ui))
         /\ (length allocations = length (all_stock_options ui) ->
             alloc_sum_ok allocations = true ->
             no_rows_or_no_columns (fetched yf_download ui) ->
             EmptyPriceData (main yf_download ui))
         /\ ((length allocations <> length (all_stock_options ui)
              \/ alloc_sum_ok allocations = false
              \/ no_rows_or_no_columns (fetched yf_download ui)) ->
             forall (portfolio : Series) (m : Metrics),
               main yf_download ui <> Displayed portfolio m)).
Proof.
  split.
  - intros [labels rs] allocations I. unfold simulate_portfolio, DataFrame_iloc0.
    cbn [rows columns]. destruct rs as [|[d0 first] rs]; cbn [bind].
    + split; [intros H; contradiction|]. split; split; try discriminate;
        try reflexivity. intros [H _]; contradiction.
    + unfold DataFrame_mul_list, DataFrame_div_row. cbn [columns rows].
      destruct (Nat.eqb_spec (length allocations) (length labels)) as [E|E];
        cbn [bind].
      * split; [|split; split; try discriminate; intros [_ H]; contradiction].
        intros _ _. eexists. split; [reflexivity|].
        unfold Series_index, Series_mul_scalar, DataFrame_sum_axis1, index.
        cbn [rows map fst]. f_equal. rewrite !map_map. reflexivity.
      * split; [intros _ H; contradiction|].
        split; split; try discriminate; try reflexivity.
        intros _. split; [discriminate|exact E].
  - intros yf ui allocations Htick Hparse. unfold main, fetched.
    destruct (all_stock_options ui) as [|t ts] eqn:Et; [contradiction|].
    rewrite Hparse. rewrite <- Et. clear Htick.
    destruct (Nat.eqb_spec (length allocations) (length (all_stock_options ui)))
      as [Hlen|Hlen]; cbn [negb].
    + destruct (alloc_sum_ok allocations) eqn:Esum; cbn [negb].
      * destruct (DataFrame_empty _) eqn:Eempty.
        -- repeat split; try discriminate.
           intros [H|H]; [contradiction|discriminate].
        -- assert (Hne : ~ no_rows_or_no_columns
                           (fetch_data yf (all_stock_options ui)
                              (start_date ui) (end_date ui))).
           { rewrite <- DataFrame_empty_iff, Eempty. discriminate. }
           repeat split.
           ++ intros [H|H]; [contradiction|discriminate].
           ++ intros _ _ H; contradiction.
           ++ intros [H|[H|H]]; [contradiction|discriminate|contradiction].
      * repeat split; try discriminate. intros _. now right.
    + repeat split; try discriminate.
      * intros _. now left.
      * intros H; contradiction.
Qed.

Lemma validation_is_left_to_the_script_witness :
  (exists s : Series,
      simulate_portfolio scenario_prices [Fin (1 / 2); Fin (2 / 5)] (Fin 10000)
      = Return s
      /\ Series_index s = index scenario_prices)
  /\ InvalidAllocation (main no_data scenario_3)
  /\ EmptyPriceData (main no_data fifty_fifty)
  /\ (forall (portfolio : Series) (m : Metrics),
         main no_data fifty_fifty <> Displayed portfolio m).
Proof.
  assert (H40 : fsum [(Fin 50 ⊘ Fin 100)%float; (Fin 40 ⊘ Fin 100)%float]
                = Fin (9 / 10)).
  { unfold fsum. float_eval. f_equal. lra. }
  assert (H50 : fsum [(Fin 50 ⊘ Fin 100)%float; (Fin 50 ⊘ Fin 100)%float]
                = Fin 1).
  { unfold fsum. float_eval. f_equal. lra. }
  assert (Hno : alloc_sum_ok [(Fin 50 ⊘ Fin 100)%float; (Fin 40 ⊘ Fin 100)%float]
                = false).
  { unfold alloc_sum_ok. rewrite H40, fsub_fin. cbn [fabs flt].
    apply Rltb_false. rewrite Rabs_lt_iff. lra. }
  assert (Hyes : alloc_sum_ok [(Fin 50 ⊘ Fin 100)%float; (Fin 50 ⊘ Fin 100)%float]
                 = true).
  { unfold alloc_sum_ok. rewrite H50, fsub_fin. cbn [fabs flt].
    apply Rltb_true. rewrite Rabs_lt_iff. lra. }
  split; [|split; [|split]].
  - apply (proj1 validation_is_left_to_the_script
             scenario_prices [Fin (1 / 2); Fin (2 / 5)] (Fin 10000));
      [discriminate|reflexivity].
  - apply (proj2 validation_is_left_to_the_script no_data scenario_3
             [(Fin 50 ⊘ Fin 100)%float; (Fin 40 ⊘ Fin 100)%float]);
      [discriminate|reflexivity|]. right. exact Hno.
  - apply (proj2 validation_is_left_to_the_script no_data fifty_fifty
             [(Fin 50 ⊘ Fin 100)%float; (Fin 50 ⊘ Fin 100)%float]);
      [discriminate|reflexivity|reflexivity|exact Hyes|]. now left.
  - apply (proj2 validation_is_left_to_the_script no_data fifty_fifty
             [(Fin 50 ⊘ Fin 100)%float; (Fin 50 ⊘ Fin 100)%float]);
      [discriminate|reflexivity|]. right. right. now left.
Defined.

(** * Rounding

    What follows is stated on the binary64 transcription [B64]: what the
    last digits of a simulated value depend on, and what does not depend on
    them. *)

Section Binary64.
Import PrimFloat.
#[local] Set Warnings "-inexact-float".
#[local] Open Scope float_scope.

(** ** The allocation test (C4) *)

(** C4 as stated fails: the weights 0.5 and 0.4 of the third scenario,
    which the test of line 86 refuses, get a series from
    [simulate_portfolio], and so does a table with rows and no column. *)
Lemma simulate_portfolio_takes_any_sum :
  B64.parse_allocations [Some 50; Some 40] = Some [0.5; 0.4]
  /\ B64.alloc_sum_ok [0.5; 0.4] = false
  /\ B64.simulate_portfolio B64.scenario_prices [0.5; 0.4] 10000
     = Return [(0%Z, 9000); (1%Z, 9900.000000000002); (2%Z, 8550)]
  /\ B64.simulate_portfolio B64.no_columns [] 10000
     = Return [(0%Z, 0); (1%Z, 0)].
Proof. repeat split; vm_compute; reflexivity. Qed.

(** Where the test of line 86 draws the line: the text "50, 50.1" sums to
    1.0009999999999999 and is accepted; "50, 50.2" is refused. *)
Example allocation_test_boundary :
  B64.parse_allocations [Some 50; Some 50.1] = Some [0.5; 0.501]
  /\ B64.fsum [0.5; 0.501] = 1.0009999999999999
  /\ B64.alloc_sum_ok [0.5; 0.501] = true
  /\ B64.parse_allocations [Some 50; Some 50.2] = Some [0.5; 0.502]
  /\ B64.alloc_sum_ok [0.5; 0.502] = false.
Proof. repeat split; vm_compute; reflexivity. Qed.

(** ** Columns and weights permuted together (C7) *)

Lemma B64_simulate_portfolio_rows (data : B64.DataFrame)
    (allocations : list float) (I : float) :
  length allocations = length (B64.columns data) ->
  B64.simulate_portfolio data allocations I
  = B64.sum_of_terms (fun l => l) data allocations I.
Proof.
  intros Hlen. unfold B64.simulate_portfolio, B64.sum_of_terms.
  destruct (B64.DataFrame_iloc0 data) as [first|e]; [|reflexivity].
  cbn [bind]. unfold B64.DataFrame_mul_list, B64.DataFrame_div_row.
  cbn [B64.columns B64.rows]. rewrite Hlen, Nat.eqb_refl. cbn [bind].
  unfold B64.Series_mul_scalar, B64.DataFrame_sum_axis1, B64.weighted_terms.
  cbn [B64.rows]. rewrite !map_map. reflexivity.
Qed.

(** C7, as the code has it.  A weight goes with the column at the same
    position.  When the columns of the table and the weights are permuted
    alike, the value on each date is the sum of the same weighted terms,
    added in the permuted order, times the investment. *)
Theorem permuted_columns_permute_the_terms :
  forall (data : B64.DataFrame) (allocations : list float) (I : float)
         (sigma : list nat),
    Permutation sigma (seq 0 (length (B64.columns data))) ->
    Forall (fun r => length (snd r) = length (B64.columns data)) (B64.rows data) ->
    length allocations = length (B64.columns data) ->
    B64.simulate_portfolio data allocations I
    = B64.sum_of_terms (fun l => l) data allocations I
    /\ B64.simulate_portfolio (B64.permute_columns sigma data)
         (permute sigma allocations nan) I
       = B64.sum_of_terms (fun l => permute sigma l nan) data allocations I
    /\ (forall (first : list float) (r : date * list float),
           B64.DataFrame_iloc0 data = Return first -> In r (B64.rows data) ->
           Permutation
             (permute sigma (B64.weighted_terms (snd r) first allocations) nan)
             (B64.weighted_terms (snd r) first allocations)).
Proof.
  intros [labels rs] allocations I sigma Hperm Hrect Hlen.
  cbn [B64.columns B64.rows] in *.
  pose proof (permutation_bound _ _ Hperm) as Hb.
  assert (Hsigma : length sigma = length labels).
  { rewrite (Permutation_length Hperm). apply length_seq. }
  split; [now apply B64_simulate_portfolio_rows|]. split.
  - rewrite B64_simulate_portfolio_rows
      by (unfold B64.permute_columns, permute; cbn [B64.columns];
          rewrite !length_map; congruence).
    assert (Hmap : forall (first : list float) (l : list (date * list float)),
               length first = length labels ->
               Forall (fun r => length (snd r) = length labels) l ->
               map (fun r => (fst r,
                              B64.nansum
                                (B64.weighted_terms (snd r)
                                   (permute sigma first nan)
                                   (permute sigma allocations nan)) * I))
                 (map (fun r => (fst r, permute sigma (snd r) nan)) l)
               = map (fun r => (fst r,
                                B64.nansum
                                  (permute sigma
                                     (B64.weighted_terms (snd r) first allocations)
                                     nan) * I)) l).
    { intros first l Hfirst Hl. rewrite map_map. cbn [fst snd].
      apply map_ext_in; intros [d row] Hin. cbn [fst snd]. do 3 f_equal.
      rewrite Forall_forall in Hl. specialize (Hl _ Hin). cbn [snd] in Hl.
      unfold B64.weighted_terms.
      rewrite (zip_with_permute div sigma row first nan nan nan)
        by (eapply Forall_impl; [|exact Hb]; simpl; intros; lia).
      apply zip_with_permute.
      eapply Forall_impl; [|exact Hb]; simpl; intros.
      rewrite length_zip_with by lia. lia. }
    unfold B64.sum_of_terms, B64.DataFrame_iloc0, B64.permute_columns.
    cbn [B64.rows]. destruct rs as [|[d0 first] rs]; [reflexivity|].
    cbn [map fst snd bind]. apply f_equal.
    apply (Hmap first ((d0, first) :: rs)); [now inversion Hrect|exact Hrect].
  - intros first r Hfirst Hin. apply permute_Permutation.
    unfold B64.DataFrame_iloc0 in Hfirst. cbn [B64.rows] in Hfirst.
    destruct rs as [|[d0 first'] rs]; [discriminate|].
    injection Hfirst as ->.
    assert (Hl : length first = length labels) by now inversion Hrect.
    rewrite Forall_forall in Hrect. specialize (Hrect _ Hin).
    unfold B64.weighted_terms.
    rewrite !length_zip_with by (rewrite ?length_zip_with by lia; lia).
    now rewrite Hrect.
Qed.

Lemma permuted_columns_permute_the_terms_witness :
  B64.simulate_portfolio B64.three_tickers [0.7; 0.2; 0.1] 10000
  = B64.sum_of_terms (fun l => l) B64.three_tickers [0.7; 0.2; 0.1] 10000
  /\ B64.simulate_portfolio (B64.permute_columns [2; 1; 0]%nat B64.three_tickers)
       (permute [2; 1; 0]%nat [0.7; 0.2; 0.1] nan) 10000
     = B64.sum_of_terms (fun l => permute [2; 1; 0]%nat l nan)
         B64.three_tickers [0.7; 0.2; 0.1] 10000
  /\ (forall (first : list float) (r : date * list float),
         B64.DataFrame_iloc0 B64.three_tickers = Return first ->
         In r (B64.rows B64.three_tickers) ->
         Permutation
           (permute [2; 1; 0]%nat
              (B64.weighted_terms (snd r) first [0.7; 0.2; 0.1]) nan)
           (B64.weighted_terms (snd r) first [0.7; 0.2; 0.1])).
Proof.
  apply permuted_columns_permute_the_terms.
  - cbn [B64.three_tickers B64.columns length seq].
    apply Permutation_trans with [1; 2; 0]%nat.
    + apply perm_swap.
    + apply Permutation_trans with [1; 0; 2]%nat.
      * apply perm_skip, perm_swap.
      * apply perm_swap.
  - repeat constructor.
  - reflexivity.
Defined.

(** The order shows in the last digit: with the weights 0.7, 0.2 and 0.1
    the first value is 9999.999999999998, and 10000 once the columns and
    the weights are taken in the reverse order. *)
Example permuted_sum_rounds_differently :
  B64.simulate_portfolio B64.three_tickers [0.7; 0.2; 0.1] 10000
  = Return [(0%Z, 9999.999999999998); (1%Z, 11000)]
  /\ B64.simulate_portfolio (B64.permute_columns [2; 1; 0]%nat B64.three_tickers)
       (permute [2; 1; 0]%nat [0.7; 0.2; 0.1] nan) 10000
     = Return [(0%Z, 10000); (1%Z, 11000)].
Proof. split; vm_compute; reflexivity. Qed.

(** ** Scaling one ticker's prices (C9) *)








(** ** Scaling the initial investment (C10) *)




(** Doubling the investment is exact on the first scenario. *)
Example doubled_investment_doubles_the_series :
  B64.simulate_portfolio B64.scenario_prices [0.5; 0.5] (2 * 10000)
  = (s <- B64.simulate_portfolio B64.scenario_prices [0.5; 0.5] 10000 ;;
     Return (B64.Series_rmul_scalar 2 s)).
Proof. vm_compute. reflexivity. Qed.

End Binary64.
